(** * OOTDiffusion training driver ([ootd/train.py]): a shallow embedding

    The script is glue around a deep-learning framework.  The framework's
    primitives (encoders, the denoising network, the loss, the optimizer
    update, random sampling) are kept abstract as section variables; the
    control flow, the bookkeeping and the data that the script itself
    manipulates (state dictionaries, the guidance-dropout mask, checkpoint
    records and file names, the step counter) are modelled concretely.

    Python integers are [Z]; [//] and [%] on integers are [Z.div] and
    [Z.modulo] (both round towards minus infinity), with the
    [ZeroDivisionError] of a zero divisor written out.  Dictionaries with
    string keys are [gmap string _].  Exceptions are an explicit outcome;
    side effects that happened before an exception stay in the state. *)

From Stdlib Require Import ZArith Lia Bool Ascii String.
From stdpp Require Import base option list strings gmap pretty.

(** ** Exceptions and the state-and-exception monad *)

Inductive exn : Type :=
| AssertionError
| ZeroDivisionError
| NotImplementedError
| ValueError (msg : string)
| RuntimeError (msg : string)
| TypeError (msg : string)
| FileNotFoundError (path : string).

Inductive outcome (A : Type) : Type :=
| Ok (a : A)
| Raise (e : exn).
Arguments Ok {A} a.
Arguments Raise {A} e.

Definition is_ok {A} (o : outcome A) : bool :=
  match o with Ok _ => true | Raise _ => false end.

(** A computation over a state [S]: the state after the computation is
    returned also when it raises. *)
Definition M (S A : Type) : Type := S -> S * outcome A.

Definition ret {S A} (a : A) : M S A := fun s => (s, Ok a).
Definition raise {S A} (e : exn) : M S A := fun s => (s, Raise e).
Definition bind {S A B} (m : M S A) (k : A -> M S B) : M S B :=
  fun s => match m s with
           | (s', Ok a) => k a s'
           | (s', Raise e) => (s', Raise e)
           end.
Definition gets {S A} (f : S -> A) : M S A := fun s => (s, Ok (f s)).
Definition modify {S} (f : S -> S) : M S unit := fun s => (f s, Ok tt).
Definition lift {S A} (o : outcome A) : M S A := fun s => (s, o).

Declare Scope train_scope.
Delimit Scope train_scope with train.
Notation "'do' x <- m ; k" := (bind m (fun x => k))
  (at level 10, x name, m at level 100, k at level 200) : train_scope.
Notation "'do_' m ; k" := (bind m (fun _ => k))
  (at level 10, m at level 100, k at level 200) : train_scope.

(** ** Tensors that the script indexes itself

    The conditioning embedding has shape [bs, 1, 768]; it is a nested list
    of scalars.  The per-sample dropout indicator has shape [bs]. *)

Module Tensor.

Section Ops.
Context {A : Type}.

(** [t.unsqueeze(1)] on a 1-D tensor and [t.unsqueeze(2)] on a 2-D one. *)
Definition unsqueeze1 (v : list A) : list (list A) :=
  map (fun x => [x]) v.
Definition unsqueeze2 (v : list (list A)) : list (list (list A)) :=
  map (map (fun x => [x])) v.

(** One dimension of [expand_as]: sizes must agree, or the source has size
    one and is repeated; anything else is the framework's shape error. *)
Definition expand_dim {B C} (f : A -> B -> outcome C)
    (src : list A) (tgt : list B) : outcome (list C) :=
  let go := fix go (ps : list (A * B)) : outcome (list C) :=
    match ps with
    | [] => Ok []
    | (a, b) :: ps' =>
        match f a b, go ps' with
        | Ok c, Ok cs => Ok (c :: cs)
        | Raise e, _ => Raise e
        | _, Raise e => Raise e
        end
    end in
  if Nat.eqb (length src) (length tgt) then go (zip src tgt)
  else match src with
       | [a] => go (map (pair a) tgt)
       | _ => Raise (RuntimeError "expand: sizes do not match")
       end.
End Ops.

(** [mask.expand_as(t)] for 3-D tensors. *)
Definition expand_as {A B} (mask : list (list (list A)))
  (t : list (list (list B))) : outcome (list (list (list A))) :=
expand_dim (expand_dim (expand_dim (fun m _ => Ok m))) mask t.

(** [t[mask] = v] with a boolean mask of the shape of [t]. *)
Definition masked_assign {A} (v : A) (t : list (list (list A)))
  (mask : list (list (list bool))) : list (list (list A)) :=
zip_with (zip_with (zip_with (fun x (m : bool) => if m then v else x)))
         t mask.

(** [d > 0], elementwise. *)
Definition gt0 (d : list Z) : list bool := map (fun x => Z.ltb 0 x) d.

End Tensor.

(** ** Classifier-free-guidance dropout (train.py, lines 462-464) *)

Section CfgDropout.
Context {scalar : Type} (zero : scalar).

Definition cfg_dropout (drop_image_embeds : list Z)
    (encoder_hidden_states : list (list (list scalar)))
  : outcome (list (list (list scalar))) :=
  let mask := Tensor.gt0 drop_image_embeds in
  match Tensor.expand_as (Tensor.unsqueeze2 (Tensor.unsqueeze1 mask))
                         encoder_hidden_states with
  | Ok mask => Ok (Tensor.masked_assign zero encoder_hidden_states mask)
  | Raise e => Raise e
  end.

(** The all-zero embedding of the shape of [e]. *)
Definition zeros_like (e : list (list scalar)) : list (list scalar) :=
  map (map (fun _ => zero)) e.
End CfgDropout.

(** ** The framework's primitives

    Everything the script delegates: tensors are opaque, random sampling
    threads an abstract generator state, and the optimizer's arithmetic is
    an arbitrary function of the optimizer state, the loss and the
    parameter it is asked to update. *)

Inductive net : Type := Garm | Vton.

#[global] Instance net_eq_dec : EqDecision net.
Proof. solve_decision. Defined.

(** A reference to one parameter tensor of one of the two networks: the
    optimizer holds references, not copies. *)
Definition param_ref : Type := net * string.

Record Framework : Type := {
  tensor : Type;
  scalar : Type;
  zero : scalar;
  loss_t : Type;
  rng_t : Type;
  opt_state : Type;
  shape0 : tensor -> nat;
  vae_encode_sample : gmap string tensor -> tensor -> rng_t -> tensor * rng_t;
  scale_latents : tensor -> tensor;
  randn_like : tensor -> rng_t -> tensor * rng_t;
  randint : Z -> nat -> rng_t -> tensor * rng_t;
  add_noise : tensor -> tensor -> tensor -> tensor;
  clip_image_encoder : gmap string tensor -> tensor -> list (list scalar);
  unet_vton_forward :
    gmap string tensor -> tensor -> tensor -> list (list (list scalar)) ->
    tensor;
  mse_loss : tensor -> tensor -> loss_t;
  adamw_init : list param_ref -> opt_state;
  (** new value of one registered parameter after zero_grad, backward,
      (unscale,) clip_grad_norm_ and step; the flag is mixed precision *)
  optim_update : opt_state -> loss_t -> bool -> param_ref -> tensor -> tensor;
  optim_next : opt_state -> loss_t -> bool -> opt_state;
  lr_scheduler_step : opt_state -> opt_state;
}.

(** ** Data of the script *)

Section Data.
Context (F : Framework).

Record param : Type := { data : tensor F; requires_grad : bool }.

(** What [torch.load] can hand back under one key of a checkpoint file. *)
Inductive pyobj : Type :=
| PInt (z : Z)
| PTensor (t : tensor F)
| PDict (d : gmap string (tensor F)).

Inductive model_class : Type :=
| AutoencoderKL | ReferenceEncoder
| UNetGarm2DConditionModel | UNetVton2DConditionModel.

Record Batch : Type := {
  pixel_values : tensor F;
  clip_ref_image : tensor F;
  pixel_values_ref_img : tensor F;
  drop_image_embeds : list Z;
}.

(** The arguments of [main] that the modelled code reads, and the two
    fields of the noise scheduler's configuration it consults. *)
Record Config : Type := {
  name : string;
  use_wandb : bool;
  output_dir : string;
  pretrained_model_path : string;
  clip_model_path : string;
  unet_garm_checkpoint_path : string;
  unet_vton_checkpoint_path : string;
  prediction_type : string;
  num_train_timesteps : Z;
  max_train_epoch : Z;
  max_train_steps : Z;
  gradient_accumulation_steps : Z;
  checkpointing_epochs : Z;
  checkpointing_steps : Z;
  mixed_precision_training : bool;
  enable_xformers_memory_efficient_attention : bool;
  is_debug : bool;
}.

(** What the process finds around it. *)
Record Env : Type := {
  global_rank : Z;
  now : string;
  is_xformers_available : bool;
  from_pretrained :
    model_class -> string -> string -> outcome (gmap string (tensor F));
  torch_load : string -> outcome (gmap string pyobj);
  dataloader_len : nat;
  batch_at : Z -> nat -> Batch;
  seed_rng : rng_t F;
}.

Inductive event : Type :=
| EvNoise (noise : tensor F)
| EvForward (noisy_latents timesteps : tensor F)
            (encoder_hidden_states : list (list (list (scalar F))))
| EvLoss (model_pred target : tensor F)
| EvOptimizerStep
| EvWandbLog (step : Z)
| EvSave (path : string).

Record World : Type := {
  vae : gmap string (tensor F);
  clip : gmap string (tensor F);
  unet_garm : gmap string param;
  unet_vton : gmap string param;
  optimizer_params : list param_ref;
  optimizer_state : opt_state F;
  rng : rng_t F;
  global_step : Z;
  files : list (string * gmap string pyobj);
  events : list event;
}.
End Data.

Arguments data {F} p.
Arguments requires_grad {F} p.
Arguments PInt {F} z.
Arguments PTensor {F} t.
Arguments PDict {F} d.
Arguments EvNoise {F}.
Arguments EvForward {F}.
Arguments EvLoss {F}.
Arguments EvOptimizerStep {F}.
Arguments EvWandbLog {F}.
Arguments EvSave {F}.
Arguments pixel_values {F} b.
Arguments clip_ref_image {F} b.
Arguments pixel_values_ref_img {F} b.
Arguments drop_image_embeds {F} b.
Arguments global_rank {F} e.
Arguments now {F} e.
Arguments is_xformers_available {F} e.
Arguments from_pretrained {F} e.
Arguments torch_load {F} e.
Arguments dataloader_len {F} e.
Arguments batch_at {F} e.
Arguments seed_rng {F} e.
Arguments vae {F} w.
Arguments clip {F} w.
Arguments unet_garm {F} w.
Arguments unet_vton {F} w.
Arguments optimizer_params {F} w.
Arguments optimizer_state {F} w.
Arguments rng {F} w.
Arguments global_step {F} w.
Arguments files {F} w.
Arguments events {F} w.

(** Sequencing of pure computations that may raise. *)
Definition and_then {A B} (o : outcome A) (k : A -> outcome B) : outcome B :=
  match o with Ok a => k a | Raise e => Raise e end.
Notation "'try' x <- o ; k" := (and_then o (fun x => k))
  (at level 10, x name, o at level 100, k at level 200) : train_scope.
Notation "'try_' o ; k" := (and_then o (fun _ => k))
  (at level 10, o at level 100, k at level 200) : train_scope.

Local Open Scope train_scope.

(** ** Python helpers *)

(** [math.ceil(a / b)] for integers [a] and [b].  The script divides with
    true division and rounds up; on the sizes that occur (below 2^53) that
    is the exact ceiling of the quotient. *)
Definition ceil_div (a b : Z) : outcome Z :=
  if Z.eqb b 0 then Raise ZeroDivisionError else Ok (- ((- a) / b))%Z.

(** [range(0, n)]. *)
Definition py_range (n : Z) : list Z := seqZ 0 n.

(** [os.path.join(a, b)] on POSIX paths. *)
Definition starts_with_slash (s : string) : bool :=
  match s with
  | String c _ => Ascii.eqb c "/"%char
  | EmptyString => false
  end.
Fixpoint ends_with_slash (s : string) : bool :=
  match s with
  | EmptyString => false
  | String c EmptyString => Ascii.eqb c "/"%char
  | String _ s' => ends_with_slash s'
  end.
Definition path_join (a b : string) : string :=
  if starts_with_slash b then b
  else if String.eqb a "" then b
  else if ends_with_slash a then a +:+ b
  else a +:+ "/" +:+ b.

(** [f"{n}"] for an integer. *)
Definition fmt_int (n : Z) : string := pretty n.

(** ** Module-level constants (train.py, lines 98-99) *)

Definition UNET_PATH : string := "../checkpoints/ootd/ootd_hd/checkpoint-36000".
Definition MODEL_PATH : string := "../checkpoints/ootd".

(** ** Model construction and checkpoint loading (lines 197-268) *)

Section Setup.
Context {F : Framework}.

(** A freshly constructed module: parameters require gradients. *)
Definition new_module (sd : gmap string (tensor F)) : gmap string (param F) :=
  (fun t => {| data := t; requires_grad := true |}) <$> sd.

(** [module.state_dict()]. *)
Definition state_dict (m : gmap string (param F)) : gmap string (tensor F) :=
  data <$> m.

(** [module.requires_grad_(b)]. *)
Definition requires_grad_ (b : bool) (m : gmap string (param F))
  : gmap string (param F) :=
  (fun p => {| data := data p; requires_grad := b |}) <$> m.

Definition is_tensor (o : pyobj F) : bool :=
  match o with PTensor _ => true | _ => false end.

Definition copy_entry (p : option (param F)) (v : option (pyobj F))
  : option (param F) :=
  match p, v with
  | Some p, Some (PTensor t) =>
      Some {| data := t; requires_grad := requires_grad p |}
  | Some p, _ => Some p
  | None, _ => None
  end.

(** [module.load_state_dict(sd, strict=False)] of the framework: entries
    are copied by name; the names the module has and [sd] lacks are
    returned as missing, the names [sd] has and the module lacks as
    unexpected; neither raises.  An entry for a name of the module that
    is not a tensor is an error. *)
Definition load_state_dict (m : gmap string (param F))
    (sd : gmap string (pyobj F))
  : outcome (gmap string (param F) * gset string * gset string) :=
  if decide (map_Forall
               (fun k v => is_Some (m !! k) -> is_tensor v = true) sd)
  then Ok (merge copy_entry m sd, dom m ∖ dom sd, dom sd ∖ dom m)
  else Raise (RuntimeError "Error(s) in loading state_dict").

(** Line 223 (and 233): the object handed to [load_state_dict]. *)
Inductive state_dict_arg : Type :=
| WholeFile (c : gmap string (pyobj F))
| UnderKey (o : pyobj F).

Definition select_state_dict (ckpt : gmap string (pyobj F))
  : state_dict_arg :=
  match ckpt !! "state_dict" with
  | Some o => UnderKey o
  | None => WholeFile ckpt
  end.

(** [load_state_dict] wants a mapping. *)
Definition as_mapping (a : state_dict_arg)
  : outcome (gmap string (pyobj F)) :=
  match a with
  | WholeFile c => Ok c
  | UnderKey (PDict d) => Ok (PTensor <$> d)
  | UnderKey _ => Raise (TypeError "Expected state_dict to be dict-like")
  end.

(** Lines 219-227 for the garment network, 229-237 for the try-on one. *)
Definition load_unet_checkpoint (env : Env F) (checkpoint_path : string)
    (unet : gmap string (param F)) : outcome (gmap string (param F)) :=
  if String.eqb checkpoint_path "" then Ok unet
  else
    try ckpt <- torch_load env checkpoint_path;
    try sd <- as_mapping (select_state_dict ckpt);
    try r <- load_state_dict unet sd;
    let '(unet', m, u) := r in
    if Nat.eqb (size u) 0 then Ok unet' else Raise AssertionError.

(** Line 257. *)
Definition trainable_params (unet_vton : gmap string (param F))
  : list param_ref :=
  (fun kp => (Vton, kp.1)) <$>
    filter (fun kp => requires_grad kp.2 = true) (map_to_list unet_vton).

Definition is_main_process (env : Env F) : bool := Z.eqb (global_rank env) 0.

(** Lines 197-281: everything before the data loader. *)
Definition setup (cfg : Config) (env : Env F) : outcome (World F) :=
  try vae <- from_pretrained env AutoencoderKL
               (pretrained_model_path cfg) "vae";
  try clip <- from_pretrained env ReferenceEncoder (clip_model_path cfg) "";
  try garm <- from_pretrained env UNetGarm2DConditionModel
                UNET_PATH "unet_garm";
  try vton <- from_pretrained env UNetVton2DConditionModel
                UNET_PATH "unet_vton";
  try unet_garm <- load_unet_checkpoint env (unet_garm_checkpoint_path cfg)
                     (new_module garm);
  try unet_vton <- load_unet_checkpoint env (unet_vton_checkpoint_path cfg)
                     (new_module vton);
  let unet_garm := requires_grad_ true unet_garm in
  let unet_vton := requires_grad_ true unet_vton in
  let params := trainable_params unet_vton in
  try_ (if enable_xformers_memory_efficient_attention cfg
        then if is_xformers_available env then Ok tt
             else Raise (ValueError "xformers is not available. Make sure it is installed correctly")
        else Ok tt);
  Ok {| vae := vae; clip := clip;
        unet_garm := unet_garm; unet_vton := unet_vton;
        optimizer_params := params;
        optimizer_state := adamw_init F params;
        rng := seed_rng env;
        global_step := 0%Z;
        files := []; events := [] |}.
End Setup.

(** ** The training loop (lines 322-603) *)

Section Training.
Context {F : Framework}.

Definition set_rng (r : rng_t F) (w : World F) : World F :=
  {| vae := vae w; clip := clip w; unet_garm := unet_garm w;
     unet_vton := unet_vton w; optimizer_params := optimizer_params w;
     optimizer_state := optimizer_state w; rng := r;
     global_step := global_step w; files := files w; events := events w |}.
Definition set_unet_garm (m : gmap string (param F)) (w : World F) : World F :=
  {| vae := vae w; clip := clip w; unet_garm := m;
     unet_vton := unet_vton w; optimizer_params := optimizer_params w;
     optimizer_state := optimizer_state w; rng := rng w;
     global_step := global_step w; files := files w; events := events w |}.
Definition set_unet_vton (m : gmap string (param F)) (w : World F) : World F :=
  {| vae := vae w; clip := clip w; unet_garm := unet_garm w;
     unet_vton := m; optimizer_params := optimizer_params w;
     optimizer_state := optimizer_state w; rng := rng w;
     global_step := global_step w; files := files w; events := events w |}.
Definition set_optimizer_state (o : opt_state F) (w : World F) : World F :=
  {| vae := vae w; clip := clip w; unet_garm := unet_garm w;
     unet_vton := unet_vton w; optimizer_params := optimizer_params w;
     optimizer_state := o; rng := rng w;
     global_step := global_step w; files := files w; events := events w |}.
Definition set_global_step (n : Z) (w : World F) : World F :=
  {| vae := vae w; clip := clip w; unet_garm := unet_garm w;
     unet_vton := unet_vton w; optimizer_params := optimizer_params w;
     optimizer_state := optimizer_state w; rng := rng w;
     global_step := n; files := files w; events := events w |}.
Definition set_files (fs : list (string * gmap string (pyobj F)))
    (w : World F) : World F :=
  {| vae := vae w; clip := clip w; unet_garm := unet_garm w;
     unet_vton := unet_vton w; optimizer_params := optimizer_params w;
     optimizer_state := optimizer_state w; rng := rng w;
     global_step := global_step w; files := fs; events := events w |}.
Definition set_events (es : list (event F)) (w : World F) : World F :=
  {| vae := vae w; clip := clip w; unet_garm := unet_garm w;
     unet_vton := unet_vton w; optimizer_params := optimizer_params w;
     optimizer_state := optimizer_state w; rng := rng w;
     global_step := global_step w; files := files w; events := es |}.

(** Drawing from the random generator. *)
Definition sample {A} (f : rng_t F -> A * rng_t F) : M (World F) A :=
  fun w => let '(a, r) := f (rng w) in (set_rng r w, Ok a).

Definition log (e : event F) : M (World F) unit :=
  modify (fun w => set_events (events w ++ [e]) w).

(** [torch.save(obj, path)]. *)
Definition torch_save (obj : gmap string (pyobj F)) (path : string)
  : M (World F) unit :=
  do_ modify (fun w => set_files (files w ++ [(path, obj)]) w);
  log (EvSave path).

(** Lines 323-325 and 327-329: a step count of -1 is derived from the
    epoch count, which then must not be -1 itself. *)
Definition resolve_steps (steps epochs : Z) (len_dataloader : Z)
  : outcome Z :=
  if Z.eqb steps (-1) then
    if negb (Z.eqb epochs (-1)) then Ok (epochs * len_dataloader)%Z
    else Raise AssertionError
  else Ok steps.

(** Lines 469-474. *)
Definition get_target (prediction_type : string) (noise : tensor F)
  : outcome (tensor F) :=
  if String.eqb prediction_type "epsilon" then Ok noise
  else if String.eqb prediction_type "v_prediction"
  then Raise NotImplementedError
  else Raise (ValueError ("Unknown prediction type " +:+ prediction_type)).

(** Line 486. *)
Definition forward (noisy_latents timesteps : tensor F)
    (encoder_hidden_states : list (list (list (scalar F))))
  : M (World F) (tensor F) :=
  do_ log (EvForward noisy_latents timesteps encoder_hidden_states);
  gets (fun w => unet_vton_forward F (state_dict (unet_vton w))
                   noisy_latents timesteps encoder_hidden_states).

(** The optimizer writes through its references. *)
Definition update_param (f : tensor F -> tensor F) (r : param_ref)
    (w : World F) : World F :=
  let upd := alter (fun p => {| data := f (data p);
                                requires_grad := requires_grad p |}) r.2 in
  match r.1 with
  | Garm => set_unet_garm (upd (unet_garm w)) w
  | Vton => set_unet_vton (upd (unet_vton w)) w
  end.

Definition apply_updates (upd : param_ref -> tensor F -> tensor F)
    (refs : list param_ref) (w : World F) : World F :=
  foldl (fun w r => update_param (upd r) r w) w refs.

(** Lines 490-518: zero_grad, backward, clipping and the optimizer step,
    on the parameters the optimizer was constructed with. *)
Definition optimizer_step (loss : loss_t F) (mixed : bool)
  : M (World F) unit :=
  do_ modify (fun w =>
        let st := optimizer_state w in
        let w' := apply_updates (optim_update F st loss mixed)
                                (optimizer_params w) w in
        set_optimizer_state (optim_next F st loss mixed) w');
  log EvOptimizerStep.

(** Lines 170-171. *)
Definition run_output_dir (cfg : Config) (env : Env F) : string :=
  let folder_name :=
    if is_debug cfg then "debug" else name cfg +:+ now env in
  path_join (output_dir cfg) folder_name.

(** Lines 538-543. *)
Definition checkpoint_record (epoch : Z) (w : World F)
  : gmap string (pyobj F) :=
  <["epoch" := PInt epoch]>
  (<["global_step" := PInt (global_step w)]>
  (<["unet_garm_state_dict" := PDict (state_dict (unet_garm w))]>
  (<["unet_vton_state_dict" := PDict (state_dict (unet_vton w))]> ∅))).

Definition epoch_checkpoint_name (epoch : Z) : string :=
  "checkpoint-epoch-" +:+ fmt_int (epoch + 1) +:+ ".ckpt".
Definition step_checkpoint_name (global_step : Z) : string :=
  "checkpoint-global_step-" +:+ fmt_int global_step +:+ ".ckpt".

(** Line 536: [is_main_process and global_step % checkpointing_steps == 0]. *)
Definition checkpoint_due (is_main : bool) (global_step steps : Z)
  : outcome bool :=
  if is_main then
    if Z.eqb steps 0 then Raise ZeroDivisionError
    else Ok (Z.eqb (global_step mod steps) 0)
  else Ok false.

(** Lines 536-548. *)
Definition save_checkpoint (cfg : Config) (env : Env F)
    (checkpointing_steps : Z) (epoch step : Z) : M (World F) unit :=
  do gs <- gets global_step;
  do due <- lift (checkpoint_due (is_main_process env) gs checkpointing_steps);
  if due : bool then
    let save_path := path_join (run_output_dir cfg env) "checkpoints" in
    do state_dict <- gets (checkpoint_record epoch);
    if Z.eqb step (Z.of_nat (dataloader_len env) - 1) then
      torch_save state_dict (path_join save_path (epoch_checkpoint_name epoch))
    else
      torch_save state_dict (path_join save_path (step_checkpoint_name gs))
  else ret tt.

(** What lines 417-464 compute for the rest of the step. *)
Record Prepared : Type := {
  p_noise : tensor F;
  p_timesteps : tensor F;
  p_noisy_latents : tensor F;
  p_encoder_hidden_states : list (list (list (scalar F)));
}.

(** Lines 417-464: latents, noise, timesteps, the noisy latents and the
    conditioning embedding with the guidance dropout applied. *)
Definition prepare (cfg : Config) (batch : Batch F)
  : M (World F) Prepared :=
  do vae_w <- gets vae;
  do clip_w <- gets clip;
  do latents <- sample (vae_encode_sample F vae_w (pixel_values batch));
  let latents := scale_latents F latents in
  do latents_ref_img <-
    sample (vae_encode_sample F vae_w (pixel_values_ref_img batch));
  let latents_ref_img := scale_latents F latents_ref_img in
  do noise <- sample (randn_like F latents);
  do_ log (EvNoise noise);
  let bsz := shape0 F latents in
  do timesteps <- sample (randint F (num_train_timesteps cfg) bsz);
  let noisy_latents := add_noise F latents noise timesteps in
  let encoder_hidden_states :=
    Tensor.unsqueeze1 (clip_image_encoder F clip_w (clip_ref_image batch)) in
  do encoder_hidden_states <-
    lift (cfg_dropout (zero F) (drop_image_embeds batch)
                      encoder_hidden_states);
  ret {| p_noise := noise; p_timesteps := timesteps;
         p_noisy_latents := noisy_latents;
         p_encoder_hidden_states := encoder_hidden_states |}.

(** Lines 478-520: forward pass, loss, optimizer and schedule. *)
Definition optimize (cfg : Config) (p : Prepared) (target : tensor F)
  : M (World F) unit :=
  do model_pred <- forward (p_noisy_latents p) (p_timesteps p)
                           (p_encoder_hidden_states p);
  let loss := mse_loss F model_pred target in
  do_ log (EvLoss model_pred target);
  do_ optimizer_step loss (mixed_precision_training cfg);
  modify (fun w =>
    set_optimizer_state (lr_scheduler_step F (optimizer_state w)) w).

(** Lines 526-603: the counter, logging, the checkpoint and the test
    for [break]. *)
Definition bookkeeping (cfg : Config) (env : Env F)
    (max_train_steps checkpointing_steps : Z) (epoch step : Z)
  : M (World F) bool :=
  do_ modify (fun w => set_global_step (global_step w + 1) w);
  do gs <- gets global_step;
  do_ (if is_main_process env && negb (is_debug cfg) && use_wandb cfg
       then log (EvWandbLog gs) else ret tt);
  do_ save_checkpoint cfg env checkpointing_steps epoch step;
  ret (Z.leb max_train_steps gs).

(** The body of the batch loop, lines 417-603; the result is whether the
    loop [break]s. *)
Definition train_step (cfg : Config) (env : Env F)
    (max_train_steps checkpointing_steps : Z) (epoch step : Z)
    (batch : Batch F) : M (World F) bool :=
  do p <- prepare cfg batch;
  do target <- lift (get_target (prediction_type cfg) (p_noise p));
  do_ optimize cfg p target;
  bookkeeping cfg env max_train_steps checkpointing_steps epoch step.

(** [for step, batch in enumerate(train_dataloader)] for one epoch. *)
Definition enumerate_batches (env : Env F) (epoch : Z)
  : list (Z * Batch F) :=
  (fun i => (Z.of_nat i, batch_at env epoch i)) <$>
    seq 0 (dataloader_len env).

Fixpoint run_batches (cfg : Config) (env : Env F)
    (max_train_steps checkpointing_steps : Z) (epoch : Z)
    (batches : list (Z * Batch F)) : M (World F) unit :=
  match batches with
  | [] => ret tt
  | (step, batch) :: rest =>
      do stop <- train_step cfg env max_train_steps checkpointing_steps
                   epoch step batch;
      if stop : bool then ret tt
      else run_batches cfg env max_train_steps checkpointing_steps
                       epoch rest
  end.

(** [for epoch in range(first_epoch, num_train_epochs)]: the [break] of
    the batch loop ends the epoch, not this loop. *)
Fixpoint run_epochs (cfg : Config) (env : Env F)
    (max_train_steps checkpointing_steps : Z) (epochs : list Z)
  : M (World F) unit :=
  match epochs with
  | [] => ret tt
  | epoch :: rest =>
      do_ run_batches cfg env max_train_steps checkpointing_steps epoch
            (enumerate_batches env epoch);
      run_epochs cfg env max_train_steps checkpointing_steps rest
  end.

(** Lines 322-603. *)
Definition train (cfg : Config) (env : Env F) : M (World F) unit :=
  let len_dataloader := Z.of_nat (dataloader_len env) in
  do max_train_steps <-
    lift (resolve_steps (max_train_steps cfg) (max_train_epoch cfg)
                        len_dataloader);
  do checkpointing_steps <-
    lift (resolve_steps (checkpointing_steps cfg) (checkpointing_epochs cfg)
                        len_dataloader);
  do num_update_steps_per_epoch <-
    lift (ceil_div len_dataloader (gradient_accumulation_steps cfg));
  do num_train_epochs <-
    lift (ceil_div max_train_steps num_update_steps_per_epoch);
  do_ modify (set_global_step 0);
  run_epochs cfg env max_train_steps checkpointing_steps
             (py_range num_train_epochs).

Definition main (cfg : Config) (env : Env F)
  : outcome (World F * outcome unit) :=
  try w <- setup cfg env;
  Ok (train cfg env w).
End Training.

(** Configuration updates used to state how derived values are used. *)
Definition with_max_train_steps (n : Z) (cfg : Config) : Config :=
  {| name := name cfg; use_wandb := use_wandb cfg;
     output_dir := output_dir cfg;
     pretrained_model_path := pretrained_model_path cfg;
     clip_model_path := clip_model_path cfg;
     unet_garm_checkpoint_path := unet_garm_checkpoint_path cfg;
     unet_vton_checkpoint_path := unet_vton_checkpoint_path cfg;
     prediction_type := prediction_type cfg;
     num_train_timesteps := num_train_timesteps cfg;
     max_train_epoch := max_train_epoch cfg;
     max_train_steps := n;
     gradient_accumulation_steps := gradient_accumulation_steps cfg;
     checkpointing_epochs := checkpointing_epochs cfg;
     checkpointing_steps := checkpointing_steps cfg;
     mixed_precision_training := mixed_precision_training cfg;
     enable_xformers_memory_efficient_attention :=
       enable_xformers_memory_efficient_attention cfg;
     is_debug := is_debug cfg |}.

Definition with_checkpointing_steps (n : Z) (cfg : Config) : Config :=
  {| name := name cfg; use_wandb := use_wandb cfg;
     output_dir := output_dir cfg;
     pretrained_model_path := pretrained_model_path cfg;
     clip_model_path := clip_model_path cfg;
     unet_garm_checkpoint_path := unet_garm_checkpoint_path cfg;
     unet_vton_checkpoint_path := unet_vton_checkpoint_path cfg;
     prediction_type := prediction_type cfg;
     num_train_timesteps := num_train_timesteps cfg;
     max_train_epoch := max_train_epoch cfg;
     max_train_steps := max_train_steps cfg;
     gradient_accumulation_steps := gradient_accumulation_steps cfg;
     checkpointing_epochs := checkpointing_epochs cfg;
     checkpointing_steps := n;
     mixed_precision_training := mixed_precision_training cfg;
     enable_xformers_memory_efficient_attention :=
       enable_xformers_memory_efficient_attention cfg;
     is_debug := is_debug cfg |}.

(** ** Observations on a run *)

Section Observations.
Context {F : Framework}.

(** The events a computation added to the log. *)
Definition new_events (w w' : World F) : list (event F) :=
  drop (length (events w)) (events w').

Definition is_forward (e : event F) : bool :=
  match e with EvForward _ _ _ => true | _ => false end.
(** The global step recorded in a written checkpoint. *)
Definition recorded_step (f : string * gmap string (pyobj F)) : option Z :=
  match f.2 !! "global_step" with
  | Some (PInt z) => Some z
  | _ => None
  end.
Definition saved_steps (w : World F) : list Z :=
  omap recorded_step (files w).

(** A batch whose dropout indicator has one entry per example of the
    conditioning embedding. *)
Definition batch_shaped (w : World F) (b : Batch F) : Prop :=
  length (drop_image_embeds b) =
  length (clip_image_encoder F (clip w) (clip_ref_image b)).

(** What lines 425-441 draw in a step that starts in world [w]: the
    scaled latents of the batch (with the generator as the two encodings
    leave it), the result of [torch.randn_like(latents)], and the result
    of [torch.randint]. *)
Definition latents_drawn (w : World F) (b : Batch F)
  : tensor F * rng_t F :=
  let '(latents, r) :=
    vae_encode_sample F (vae w) (pixel_values b) (rng w) in
  let '(_, r) :=
    vae_encode_sample F (vae w) (pixel_values_ref_img b) r in
  (scale_latents F latents, r).
Definition noise_drawn (w : World F) (b : Batch F)
  : tensor F * rng_t F :=
  let '(latents, r) := latents_drawn w b in
  randn_like F latents r.
Definition timesteps_drawn (cfg : Config) (w : World F) (b : Batch F)
  : tensor F * rng_t F :=
  let '(latents, _) := latents_drawn w b in
  let '(_, r) := noise_drawn w b in
  randint F (num_train_timesteps cfg) (shape0 F latents) r.

(** The optimizer's references are exactly the parameters of the try-on
    network, each once. *)
Definition optimizes_unet_vton (w : World F) : Prop :=
  NoDup (optimizer_params w) /\
  forall r : param_ref,
    r ∈ optimizer_params w <-> r.1 = Vton /\ is_Some (unet_vton w !! r.2).

(** The number of batches one epoch processes when it starts at counter
    [gs]: the loop stops after the batch that brings the counter to
    [max_steps] or beyond, and never before its first batch. *)
Fixpoint epoch_batches (max_steps gs : Z) (len : nat) : nat :=
  match len with
  | O => O
  | S len' =>
      if Z.leb max_steps (gs + 1) then 1%nat
      else S (epoch_batches max_steps (gs + 1) len')
  end.

(** The counter after [epochs] epochs that start at counter [gs]. *)
Fixpoint final_step (max_steps : Z) (len : nat) (gs : Z) (epochs : nat)
  : Z :=
  match epochs with
  | O => gs
  | S n =>
      final_step max_steps len
        (gs + Z.of_nat (epoch_batches max_steps gs len))%Z n
  end.

(** The counter values in [gs+1 .. gs+k] at which the main process saves
    a checkpoint. *)
Definition due_steps (is_main : bool) (interval gs : Z) (k : Z) : list Z :=
  if is_main
  then filter (fun z => (z mod interval)%Z = 0%Z) (seqZ (gs + 1) k)
  else [].

(** The content of a checkpoint file that [load_unet_checkpoint] is meant
    for: a bare state mapping (which has no key "state_dict": the script
    takes any mapping with that key for a wrapper), or a wrapper holding
    the mapping under "state_dict". *)
Definition holds_state_dict (ckpt : gmap string (pyobj F))
    (sd : gmap string (tensor F)) : Prop :=
  (ckpt !! "state_dict" = None /\ ckpt = PTensor <$> sd) \/
  ckpt !! "state_dict" = Some (PDict sd).

(** *** Two sentences of the specification, as they are worded *)

(** "Both networks are among the optimized trainable parameters." *)
Definition all_parameters_optimized (w : World F) : Prop :=
  forall n : string,
    (is_Some (unet_garm w !! n) -> (Garm, n) ∈ optimizer_params w) /\
    (is_Some (unet_vton w !! n) -> (Vton, n) ∈ optimizer_params w).

(** "The two networks' pretrained weights come from sub-paths of the
    configured base-model directory." *)
Definition unets_from_base_model (cfg : Config) (env : Env F)
    (w : World F) : Prop :=
  from_pretrained env UNetGarm2DConditionModel
    (pretrained_model_path cfg) "unet_garm" = Ok (state_dict (unet_garm w)) /\
  from_pretrained env UNetVton2DConditionModel
    (pretrained_model_path cfg) "unet_vton" = Ok (state_dict (unet_vton w)).
End Observations.

(** ** Relations between the world before and after a computation *)

(** [m] only moves the state along [R], whatever its outcome. *)
Definition stable {S A} (R : S -> S -> Prop) (m : M S A) : Prop :=
  forall s, R s (m s).1.

(** The seven ways the loop changes the world. *)
Class Respects {F : Framework} (R : World F -> World F -> Prop) : Prop := {
  respects_preorder :: PreOrder R;
  respects_rng : forall w r, R w (set_rng r w);
  respects_log : forall w e, R w (set_events (events w ++ [e]) w);
  respects_opt_state : forall w o, R w (set_optimizer_state o w);
  respects_updates :
    forall w upd, R w (apply_updates upd (optimizer_params w) w);
  respects_incr : forall w, R w (set_global_step (global_step w + 1) w);
  respects_reset : forall w, R w (set_global_step 0 w);
  respects_save :
    forall w epoch path,
      R w (set_files (files w ++ [(path, checkpoint_record epoch w)]) w);
}.

Section Relations.
Context {F : Framework}.

(** The references never change, the try-on network keeps its parameter
    names, and the garment network keeps its values as long as no
    reference points into it. *)
Definition garm_frame (w w' : World F) : Prop :=
  optimizer_params w' = optimizer_params w /\
  dom (unet_vton w') = dom (unet_vton w) /\
  ((forall r : param_ref, r ∈ optimizer_params w -> r.1 = Vton) ->
   unet_garm w' = unet_garm w).

(** Files are only added, and every added file holds a checkpoint
    record. *)
Definition writes_records (w w' : World F) : Prop :=
  exists new,
    files w' = files w ++ new /\
    Forall (fun f => exists epoch w'', f.2 = checkpoint_record epoch w'')
           new.
End Relations.

(** ** A small concrete framework: tensors and scalars are integers *)

Module Example.
Local Open Scope Z_scope.

Definition ZF : Framework := {|
  tensor := Z; scalar := Z; zero := 0; loss_t := Z; rng_t := Z;
  opt_state := Z;
  shape0 := fun _ => 1%nat;
  vae_encode_sample := fun _ t r => (t, r + 1);
  scale_latents := fun t => t;
  randn_like := fun _ r => (r, r + 1);
  randint := fun _ _ r => (r, r + 1);
  add_noise := fun l n _ => l + n;
  clip_image_encoder := fun _ t => [[t; t + 1]];
  unet_vton_forward := fun _ x _ _ => x;
  mse_loss := fun a b => (a - b) * (a - b);
  adamw_init := fun _ => 0;
  optim_update := fun _ _ _ _ t => t + 1;
  optim_next := fun s _ _ => s + 1;
  lr_scheduler_step := fun s => s;
|}.

Definition cfg (max_steps accumulation ckpt_steps : Z) : Config := {|
  name := "stage1"; use_wandb := false; output_dir := "outputs";
  pretrained_model_path := "models/stable-diffusion-v1-5";
  clip_model_path := "models/clip-vit-large-patch14";
  unet_garm_checkpoint_path := ""; unet_vton_checkpoint_path := "";
  prediction_type := "epsilon"; num_train_timesteps := 1000;
  max_train_epoch := -1; max_train_steps := max_steps;
  gradient_accumulation_steps := accumulation;
  checkpointing_epochs := 5; checkpointing_steps := ckpt_steps;
  mixed_precision_training := true;
  enable_xformers_memory_efficient_attention := true;
  is_debug := false |}.

(** The same run with a scheduler configured for v-prediction. *)
Definition cfg_v_prediction : Config := {|
  name := "stage1"; use_wandb := false; output_dir := "outputs";
  pretrained_model_path := "models/stable-diffusion-v1-5";
  clip_model_path := "models/clip-vit-large-patch14";
  unet_garm_checkpoint_path := ""; unet_vton_checkpoint_path := "";
  prediction_type := "v_prediction"; num_train_timesteps := 1000;
  max_train_epoch := -1; max_train_steps := 2;
  gradient_accumulation_steps := 1;
  checkpointing_epochs := 5; checkpointing_steps := 1;
  mixed_precision_training := true;
  enable_xformers_memory_efficient_attention := true;
  is_debug := false |}.

(** Step counts left to be derived from epoch counts. *)
Definition cfg_epochs (epochs ckpt_epochs : Z) : Config := {|
  name := "stage1"; use_wandb := false; output_dir := "outputs";
  pretrained_model_path := "models/stable-diffusion-v1-5";
  clip_model_path := "models/clip-vit-large-patch14";
  unet_garm_checkpoint_path := ""; unet_vton_checkpoint_path := "";
  prediction_type := "epsilon"; num_train_timesteps := 1000;
  max_train_epoch := epochs; max_train_steps := -1;
  gradient_accumulation_steps := 1;
  checkpointing_epochs := ckpt_epochs; checkpointing_steps := -1;
  mixed_precision_training := true;
  enable_xformers_memory_efficient_attention := true;
  is_debug := false |}.

(** Weights on disk: the hard-coded directory holds value 2, every other
    directory value 1. *)
Definition disk (c : model_class) (dir subfolder : string)
  : outcome (gmap string Z) :=
  if String.eqb dir UNET_PATH then Ok {[ "conv_in.weight" := 2 ]}
  else Ok {[ "conv_in.weight" := 1 ]}.

Definition batch0 : Batch ZF :=
  @Build_Batch ZF 0 5 0 [1].

Definition env (rank : Z) (len : nat) : Env ZF :=
  @Build_Env ZF rank "-2024-01-01T00-00-00" true disk
    (fun p => Raise (FileNotFoundError p)) len (fun _ _ => batch0) 42.

(** A checkpoint file in wrapper form, for a module with two
    parameters of which it covers one. *)
Definition wrapper_file : gmap string (pyobj ZF) :=
  <["state_dict" :=
      @PDict ZF ({[ "conv_in.weight" := 7 ]} : gmap string Z)]>
  (<["global_step" := @PInt ZF 100]> ∅).
Definition two_params : gmap string (param ZF) :=
  new_module (<["conv_in.weight" := 1]> (<["conv_out.bias" := 3]> ∅)
              : gmap string (tensor ZF)).
Definition env_with_file : Env ZF :=
  @Build_Env ZF 0 "-2024-01-01T00-00-00" true disk
    (fun p => if String.eqb p "garm.ckpt" then Ok wrapper_file
              else Raise (FileNotFoundError p))
    2%nat (fun _ _ => batch0) 42.

(** The world after [setup], or an empty one had it failed. *)
Definition world0 (c : Config) (e : Env ZF) : World ZF :=
  match setup c e with
  | Ok w => w
  | Raise _ =>
      @Build_World ZF ∅ ∅ ∅ ∅ [] 0 0 0 [] []
  end.
End Example.

(** ** Distributed initialisation ([init_dist], lines 49-78) *)

Module Dist.

Inductive error : Type :=
| KeyError (key : string)
| IntValueError (text : string)
| ZeroDivision
| LauncherNotImplemented (launcher : string).

Inductive result : Type :=
| Returned (local_rank : Z)
| Failed (e : error).

(** Calls into the framework, in order; the process group is created with
  the environment as it is at that moment. *)
Inductive call : Type :=
| SetDevice (local_rank : Z)
| InitProcessGroup (backend : string) (environ : gmap string string).

Record Host : Type := {
environ : gmap string string;
calls : list call;
}.

Section InitDist.
(** [int(s)] of the language, [torch.cuda.device_count()] and the output
    of the [scontrol show hostname ... | head -n1] pipeline. *)
Context (py_int : string -> option Z) (device_count : nat)
        (scontrol_first_host : string -> string).

Definition getenv (h : Host) (key : string) : error + string :=
  match environ h !! key with
  | Some v => inr v
  | None => inl (KeyError key)
  end.

Definition getenv_int (h : Host) (key : string) : error + Z :=
  match getenv h key with
  | inl e => inl e
  | inr v => match py_int v with
             | Some n => inr n
             | None => inl (IntValueError v)
             end
  end.

(** [rank % num_gpus]. *)
Definition local_rank_of (rank : Z) : error + Z :=
  if Nat.eqb device_count 0 then inl ZeroDivision
  else inr (rank mod Z.of_nat device_count)%Z.

Definition setenv (key value : string) (h : Host) : Host :=
  {| environ := <[key := value]> (environ h); calls := calls h |}.
Definition do_call (c : call) (h : Host) : Host :=
  {| environ := environ h; calls := calls h ++ [c] |}.

Definition init_dist (launcher backend : string) (port : Z) (h : Host)
  : Host * result :=
  if String.eqb launcher "pytorch" then
    match getenv_int h "RANK" with
    | inl e => (h, Failed e)
    | inr rank =>
        match local_rank_of rank with
        | inl e => (h, Failed e)
        | inr local_rank =>
            let h := do_call (SetDevice local_rank) h in
            let h := do_call (InitProcessGroup backend (environ h)) h in
            (h, Returned local_rank)
        end
    end
  else if String.eqb launcher "slurm" then
    match getenv_int h "SLURM_PROCID" with
    | inl e => (h, Failed e)
    | inr proc_id =>
        match getenv_int h "SLURM_NTASKS" with
        | inl e => (h, Failed e)
        | inr ntasks =>
            match getenv h "SLURM_NODELIST" with
            | inl e => (h, Failed e)
            | inr node_list =>
                match local_rank_of proc_id with
                | inl e => (h, Failed e)
                | inr local_rank =>
                    let h := do_call (SetDevice local_rank) h in
                    let addr := scontrol_first_host node_list in
                    let h := setenv "MASTER_ADDR" addr h in
                    let h := setenv "WORLD_SIZE" (fmt_int ntasks) h in
                    let h := setenv "RANK" (fmt_int proc_id) h in
                    let port :=
                      match environ h !! "PORT" with
                      | Some p => p
                      | None => fmt_int port
                      end in
                    let h := setenv "MASTER_PORT" port h in
                    let h :=
                      do_call (InitProcessGroup backend (environ h)) h in
                    (h, Returned local_rank)
                end
            end
        end
    end
  else (h, Failed (LauncherNotImplemented launcher)).
End InitDist.

(** A decimal reader for the examples: digits only. *)
Fixpoint digits_value (acc : Z) (s : string) : option Z :=
match s with
| EmptyString => Some acc
| String c s' =>
    let n := Ascii.nat_of_ascii c in
    if Nat.leb 48 n && Nat.leb n 57
    then digits_value (10 * acc + Z.of_nat (n - 48))%Z s'
    else None
end.
Definition read_digits (s : string) : option Z :=
match s with
| EmptyString => None
| _ => digits_value 0 s
end.

Definition slurm_host : Host :=
{| environ := <["SLURM_PROCID" := "5"]> (<["SLURM_NTASKS" := "8"]>
              (<["SLURM_NODELIST" := "node[01-02]"]> ∅));
   calls := [] |}.
Definition torchrun_host : Host :=
{| environ := <["RANK" := "3"]> ∅; calls := [] |}.

End Dist.

(** ** Parameters without gradients
       ([get_parameters_without_gradients], lines 81-96) *)

Section NoGrad.
Context {T : Type}.

(** [model.named_parameters()]: names with the parameter's [.grad]. *)
Definition named_grads : Type := list (string * option T).

Definition name_if_no_grad (q : string * option T) : option string :=
  match q.2 with None => Some q.1 | Some _ => None end.

(** The loop: one printed line per parameter, and the names whose
    gradient is [None] appended in order.  The result is the pair of the
    names printed and the list returned. *)
Definition get_parameters_without_gradients (named_parameters : named_grads)
  : list string * list string :=
  foldl (fun '(printed, no_grad_params) '(name, grad) =>
           (printed ++ [name],
            match grad with
            | None => no_grad_params ++ [name]
            | Some _ => no_grad_params
            end))
        ([], []) named_parameters.
End NoGrad.

(** ** Further observations on a run *)

From Stdlib Require Import Sorted.

Section RunObservations.
Context {F : Framework}.

(** Line 531: who logs to the experiment tracker. *)
Definition wandb_gate (cfg : Config) (env : Env F) : bool :=
  is_main_process env && negb (is_debug cfg) && use_wandb cfg.

Definition is_wandb_log (e : event F) : bool :=
  match e with EvWandbLog _ => true | _ => false end.
Definition is_optimizer_step (e : event F) : bool :=
  match e with EvOptimizerStep => true | _ => false end.
Definition is_save (e : event F) : bool :=
  match e with EvSave _ => true | _ => false end.

Definition count_events (p : event F -> bool) (w : World F) : nat :=
  length (filter (fun e => p e = true) (events w)).

(** The paths handed to [torch.save], in order. *)
Definition saved_paths (w : World F) : list string :=
  omap (fun e => match e with EvSave p => Some p | _ => None end)
       (events w).

(** Line 537. *)
Definition checkpoint_dir (cfg : Config) (env : Env F) : string :=
  path_join (run_output_dir cfg env) "checkpoints".

Definition checkpoint_path (cfg : Config) (env : Env F) (path : string)
  : Prop :=
  exists n : Z,
    path = path_join (checkpoint_dir cfg env) (epoch_checkpoint_name n) \/
    path = path_join (checkpoint_dir cfg env) (step_checkpoint_name n).

(** The world after lines 526-603, whatever their outcome. *)
Definition after_bookkeeping (cfg : Config) (env : Env F)
    (checkpointing_steps epoch step : Z) (w : World F) : World F :=
  let w1 := set_global_step (global_step w + 1) w in
  let w2 := if wandb_gate cfg env
            then set_events (events w1 ++ [EvWandbLog (global_step w1)]) w1
            else w1 in
  match checkpoint_due (is_main_process env) (global_step w2)
                       checkpointing_steps with
  | Ok true =>
      let file :=
        if Z.eqb step (Z.of_nat (dataloader_len env) - 1)
        then epoch_checkpoint_name epoch
        else step_checkpoint_name (global_step w2) in
      let path := path_join (checkpoint_dir cfg env) file in
      set_events (events w2 ++ [EvSave path])
        (set_files (files w2 ++ [(path, checkpoint_record epoch w2)]) w2)
  | _ => w2
  end.

(** The frozen networks and the optimizer's references stay. *)
Definition keeps_frozen (w w' : World F) : Prop :=
  vae w' = vae w /\ clip w' = clip w /\
  optimizer_params w' = optimizer_params w.

(** Nothing is written. *)
Definition keeps_files (w w' : World F) : Prop :=
  files w' = files w /\ saved_paths w' = saved_paths w.

(** Nothing is logged to the tracker. *)
Definition keeps_wandb (w w' : World F) : Prop :=
  count_events is_wandb_log w' = count_events is_wandb_log w.

(** The counter moves with the optimizer steps and the forward passes. *)
Definition counts_steps (w w' : World F) : Prop :=
  (global_step w' - Z.of_nat (count_events is_optimizer_step w') =
   global_step w - Z.of_nat (count_events is_optimizer_step w))%Z /\
  (global_step w' - Z.of_nat (count_events is_forward w') =
   global_step w - Z.of_nat (count_events is_forward w))%Z.

(** Saved steps are strictly increasing and lie in [1 .. counter]. *)
Definition steps_in_order (w : World F) : Prop :=
  (0 <= global_step w)%Z /\
  StronglySorted Z.lt (saved_steps w) /\
  Forall (fun s => (1 <= s <= global_step w)%Z) (saved_steps w).
Definition keeps_order (w w' : World F) : Prop :=
  steps_in_order w -> steps_in_order w'.

(** Every file added lies in the run's checkpoint directory, holds a
    checkpoint record, and was announced by a save event. *)
Definition writes_into_dir (cfg : Config) (env : Env F) (w w' : World F)
  : Prop :=
  exists new,
    files w' = files w ++ new /\
    saved_paths w' = saved_paths w ++ new.*1 /\
    Forall (fun f => checkpoint_path cfg env f.1) new.

(** A file written at the end of an epoch whose number is a multiple of
    [every]: it carries that epoch number in its name and the counter
    of that moment in its record. *)
Definition epoch_end_file (cfg : Config) (env : Env F) (every : Z)
    (f : string * gmap string (pyobj F)) : Prop :=
  exists k : Z,
    (1 <= k)%Z /\
    f.1 = path_join (checkpoint_dir cfg env)
            ("checkpoint-epoch-" +:+ fmt_int (k * every) +:+ ".ckpt") /\
    recorded_step f = Some (k * every * Z.of_nat (dataloader_len env))%Z.

(** Nothing is trained. *)
Definition keeps_weights (w w' : World F) : Prop :=
  unet_garm w' = unet_garm w /\ unet_vton w' = unet_vton w /\
  optimizer_state w' = optimizer_state w /\ files w' = files w /\
  count_events is_forward w' = count_events is_forward w /\
  count_events is_optimizer_step w' = count_events is_optimizer_step w.
End RunObservations.

Definition with_max_train_epoch (n : Z) (cfg : Config) : Config :=
  {| name := name cfg; use_wandb := use_wandb cfg;
     output_dir := output_dir cfg;
     pretrained_model_path := pretrained_model_path cfg;
     clip_model_path := clip_model_path cfg;
     unet_garm_checkpoint_path := unet_garm_checkpoint_path cfg;
     unet_vton_checkpoint_path := unet_vton_checkpoint_path cfg;
     prediction_type := prediction_type cfg;
     num_train_timesteps := num_train_timesteps cfg;
     max_train_epoch := n;
     max_train_steps := max_train_steps cfg;
     gradient_accumulation_steps := gradient_accumulation_steps cfg;
     checkpointing_epochs := checkpointing_epochs cfg;
     checkpointing_steps := checkpointing_steps cfg;
     mixed_precision_training := mixed_precision_training cfg;
     enable_xformers_memory_efficient_attention :=
       enable_xformers_memory_efficient_attention cfg;
     is_debug := is_debug cfg |}.

Definition with_checkpointing_epochs (n : Z) (cfg : Config) : Config :=
  {| name := name cfg; use_wandb := use_wandb cfg;
     output_dir := output_dir cfg;
     pretrained_model_path := pretrained_model_path cfg;
     clip_model_path := clip_model_path cfg;
     unet_garm_checkpoint_path := unet_garm_checkpoint_path cfg;
     unet_vton_checkpoint_path := unet_vton_checkpoint_path cfg;
     prediction_type := prediction_type cfg;
     num_train_timesteps := num_train_timesteps cfg;
     max_train_epoch := max_train_epoch cfg;
     max_train_steps := max_train_steps cfg;
     gradient_accumulation_steps := gradient_accumulation_steps cfg;
     checkpointing_epochs := n;
     checkpointing_steps := checkpointing_steps cfg;
     mixed_precision_training := mixed_precision_training cfg;
     enable_xformers_memory_efficient_attention :=
       enable_xformers_memory_efficient_attention cfg;
     is_debug := is_debug cfg |}.

(** A file holding a checkpoint this script wrote. *)
Definition env_own_checkpoint : Env Example.ZF :=
  @Build_Env Example.ZF 0 "-2024-01-01T00-00-00" true Example.disk
    (fun p => Ok (checkpoint_record 0
                    (Example.world0 (Example.cfg 2 1 1) (Example.env 0 2))))
    2%nat (fun _ _ => Example.batch0) 42%Z.

(** An interval of one epoch, derived from the data loader. *)
Definition cfg_every_epoch : Config :=
  with_checkpointing_epochs 1
    (with_checkpointing_steps (-1) (Example.cfg 4 1 1)).

(** * Properties *)

(** Closing a goal about a concrete run by evaluating it. *)
Ltac evaluate := vm_compute; reflexivity.

(** The phases of a step are reasoned about through their lemmas. *)
#[local] Arguments prepare : simpl never.
#[local] Arguments optimize : simpl never.
#[local] Arguments bookkeeping : simpl never.
#[local] Arguments save_checkpoint : simpl never.
#[local] Arguments train_step : simpl never.

(** ** Guidance dropout *)

Section CfgDropoutFacts.
Context {scalar : Type} (zero : scalar).

Lemma expand_dim_zip_map {X A B C} (f : A -> B -> outcome C)
    (h : X -> A) (g : X -> B -> C) (l : list X) (tgt : list B) :
  length l = length tgt ->
  (forall x b, f (h x) b = Ok (g x b)) ->
  Tensor.expand_dim f (map h l) tgt = Ok (zip_with g l tgt).
Proof.
  intros Hlen Hf. unfold Tensor.expand_dim.
  rewrite length_map, Hlen, Nat.eqb_refl.
  clear Hlen. revert tgt.
  induction l as [|x l IH]; intros [|b tgt]; simpl; try reflexivity.
  rewrite Hf, IH. reflexivity.
Qed.

Lemma expand_dim_repeat {A B C} (f : A -> B -> outcome C)
    (a : A) (g : B -> C) (tgt : list B) :
  (forall b, f a b = Ok (g b)) ->
  Tensor.expand_dim f [a] tgt = Ok (map g tgt).
Proof.
  intros Hf. unfold Tensor.expand_dim.
  assert (Hgo : forall t : list B,
    (fix go (ps : list (A * B)) : outcome (list C) :=
       match ps with
       | [] => Ok []
       | (a0, b) :: ps' =>
           match f a0 b, go ps' with
           | Ok c, Ok cs => Ok (c :: cs)
           | Raise e, _ => Raise e
           | _, Raise e => Raise e
           end
       end) (map (pair a) t) = Ok (map g t)).
  { induction t as [|b t IH]; simpl; [reflexivity|].
    rewrite Hf, IH. reflexivity. }
  destruct (Nat.eqb (length [a]) (length tgt)) eqn:E; [|apply Hgo].
  apply Nat.eqb_eq in E. destruct tgt as [|b [|b' tgt]]; try discriminate.
  simpl. rewrite Hf. reflexivity.
Qed.

(** The expanded mask repeats each example's flag over its embedding. *)
Lemma expand_as_mask (mask : list bool) (t : list (list (list scalar))) :
  length mask = length t ->
  Tensor.expand_as (Tensor.unsqueeze2 (Tensor.unsqueeze1 mask)) t =
  Ok (zip_with (fun m e => map (map (fun _ => m)) e) mask t).
Proof.
  intros Hlen. unfold Tensor.expand_as, Tensor.unsqueeze2, Tensor.unsqueeze1.
  rewrite map_map. simpl.
  apply (expand_dim_zip_map _ (fun m : bool => [[m]])
           (fun m e => map (map (fun _ => m)) e)); [exact Hlen|].
  intros m e.
  apply (expand_dim_repeat _ [m] (map (fun _ => m))).
  intros row. apply (expand_dim_repeat _ m (fun _ => m)). reflexivity.
Qed.

Lemma masked_row (m : bool) (row : list scalar) :
  zip_with (fun x (b : bool) => if b then zero else x) row
           (map (fun _ => m) row) =
  if m then map (fun _ => zero) row else row.
Proof.
  induction row as [|x row IH]; simpl; [by destruct m|].
  rewrite IH. by destruct m.
Qed.

Lemma masked_example (m : bool) (e : list (list scalar)) :
  zip_with (zip_with (fun x (b : bool) => if b then zero else x)) e
           (map (map (fun _ => m)) e) =
  if m then zeros_like zero e else e.
Proof.
  unfold zeros_like.
  induction e as [|row e IH]; simpl; [by destruct m|].
  rewrite IH, masked_row. by destruct m.
Qed.

Lemma cfg_dropout_eq (drop : list Z) (ehs : list (list (list scalar))) :
  length drop = length ehs ->
  cfg_dropout zero drop ehs =
  Ok (zip_with (fun d e => if Z.ltb 0 d then zeros_like zero e else e)
               drop ehs).
Proof.
  intros Hlen. unfold cfg_dropout.
  rewrite expand_as_mask by (unfold Tensor.gt0; by rewrite length_map).
  f_equal. unfold Tensor.masked_assign, Tensor.gt0.
  clear Hlen. revert ehs.
  induction drop as [|d drop IH]; intros [|e ehs]; simpl; try reflexivity.
  rewrite IH, masked_example. reflexivity.
Qed.

(** C4. For a batch whose indicator has one entry per example, the
    guidance dropout succeeds, keeps the number of examples, replaces the
    whole embedding of every example whose indicator is greater than 0 by
    zeros, and returns the embedding of every other example unchanged. *)
Theorem cfg_dropout_zeroes_exactly_flagged
    (drop : list Z) (ehs : list (list (list scalar))) :
  length drop = length ehs ->
  exists ehs',
    cfg_dropout zero drop ehs = Ok ehs' /\
    length ehs' = length ehs /\
    forall (i : nat) (d : Z) (e : list (list scalar)),
      drop !! i = Some d -> ehs !! i = Some e ->
      ehs' !! i = Some (if Z.ltb 0 d then zeros_like zero e else e).
Proof.
  intros Hlen. eexists. split; [by apply cfg_dropout_eq|]. split.
  - rewrite length_zip_with. lia.
  - intros i d e Hd He. rewrite lookup_zip_with, Hd. simpl.
    rewrite He. reflexivity.
Qed.
End CfgDropoutFacts.

Lemma cfg_dropout_zeroes_exactly_flagged_witness :
  exists ehs',
    cfg_dropout 0%Z [1; 0; -1]%Z [[[7; 8]]; [[3; 4]]; [[5; 6]]]%Z = Ok ehs' /\
    length ehs' = 3 /\
    forall (i : nat) (d : Z) (e : list (list Z)),
      [1; 0; -1]%Z !! i = Some d ->
      [[[7; 8]]; [[3; 4]]; [[5; 6]]]%Z !! i = Some e ->
      ehs' !! i = Some (if Z.ltb 0 d then zeros_like 0%Z e else e).
Proof.
  apply (cfg_dropout_zeroes_exactly_flagged 0%Z
           [1; 0; -1]%Z [[[7; 8]]; [[3; 4]]; [[5; 6]]]%Z).
  reflexivity.
Defined.

(** ** Relations that every computation of the loop respects *)

Section Stable.
Context {S : Type} (R : S -> S -> Prop) `{!PreOrder R}.

Lemma stable_ret {A} (a : A) : stable R (ret a).
Proof. intros s. reflexivity. Qed.
Lemma stable_raise {A} (e : exn) : stable R (@raise S A e).
Proof. intros s. reflexivity. Qed.
Lemma stable_lift {A} (o : outcome A) : stable R (lift o).
Proof. intros s. reflexivity. Qed.
Lemma stable_gets {A} (f : S -> A) : stable R (gets f).
Proof. intros s. reflexivity. Qed.
Lemma stable_modify (f : S -> S) : (forall s, R s (f s)) -> stable R (modify f).
Proof. intros H s. apply H. Qed.
Lemma stable_bind {A B} (m : M S A) (k : A -> M S B) :
  stable R m -> (forall a, stable R (k a)) -> stable R (bind m k).
Proof.
  intros Hm Hk s. unfold bind. specialize (Hm s).
  destruct (m s) as [s' [a|e]]; simpl in *; [|exact Hm].
  etransitivity; [exact Hm|apply Hk].
Qed.
End Stable.


Section StableLoop.
Context {F : Framework} (R : World F -> World F -> Prop) `{!PreOrder R}.

Lemma stable_sample {A} (f : rng_t F -> A * rng_t F) :
  (forall w r, R w (set_rng r w)) -> stable R (sample f).
Proof. intros H w. unfold sample. destruct (f (rng w)). apply H. Qed.

Lemma stable_run_batches cfg env mts cs epoch batches :
  (forall step b, stable R (train_step cfg env mts cs epoch step b)) ->
  stable R (run_batches cfg env mts cs epoch batches).
Proof.
  intros Hstep. induction batches as [|[step b] rest IH]; simpl.
  - by apply stable_ret.
  - apply stable_bind; [exact _|apply Hstep|].
    intros [|]; [by apply stable_ret|exact IH].
Qed.

Lemma stable_run_epochs cfg env mts cs epochs :
  (forall epoch step b, stable R (train_step cfg env mts cs epoch step b)) ->
  stable R (run_epochs cfg env mts cs epochs).
Proof.
  intros Hstep. induction epochs as [|epoch rest IH]; simpl.
  - by apply stable_ret.
  - apply stable_bind; [exact _| |intros _; exact IH].
    by apply stable_run_batches.
Qed.

Lemma stable_train cfg env :
  (forall w, R w (set_global_step 0 w)) ->
  (forall mts cs epoch step b,
      stable R (train_step cfg env mts cs epoch step b)) ->
  stable R (train cfg env).
Proof.
  intros Hgs Hstep. unfold train.
  repeat (apply stable_bind; [exact _|by apply stable_lift|intros ?]).
  apply stable_bind; [exact _| |intros _].
  - apply stable_modify. intros w. apply Hgs.
  - by apply stable_run_epochs.
Qed.
End StableLoop.

Section StableStep.
Context {F : Framework} (R : World F -> World F -> Prop) `{!Respects R}.

Ltac stable_seq :=
  repeat first
    [ apply stable_ret; exact _
    | apply stable_raise; exact _
    | apply stable_lift; exact _
    | apply stable_gets; exact _
    | apply stable_sample; intros; apply respects_rng
    | apply stable_modify; intros; apply respects_log
    | (apply stable_bind; [exact _| |intros ?]) ].

Lemma stable_log (e : event F) : stable R (log e).
Proof. apply stable_modify. intros w. apply respects_log. Qed.

Lemma stable_prepare cfg b : stable R (prepare cfg b).
Proof. unfold prepare, log. stable_seq. Qed.

Lemma stable_optimizer_step loss mixed : stable R (optimizer_step loss mixed).
Proof.
  unfold optimizer_step. apply stable_bind; [exact _| |intros _].
  - apply stable_modify. intros w. simpl.
    etransitivity; [apply respects_updates|apply respects_opt_state].
  - apply stable_log.
Qed.

Lemma stable_optimize cfg p t : stable R (optimize cfg p t).
Proof.
  unfold optimize, forward.
  apply stable_bind; [exact _| |intros pred].
  { apply stable_bind; [exact _|apply stable_log|intros _].
    apply stable_gets; exact _. }
  apply stable_bind; [exact _|apply stable_log|intros _].
  apply stable_bind; [exact _|apply stable_optimizer_step|intros _].
  apply stable_modify. intros w. apply respects_opt_state.
Qed.

Lemma torch_save_respects obj path w :
  R w (set_files (files w ++ [(path, obj)]) w) ->
  R w (torch_save obj path w).1.
Proof.
  intros H. unfold torch_save, bind, modify, log. simpl.
  etransitivity; [exact H|].
  apply (respects_log (set_files (files w ++ [(path, obj)]) w)).
Qed.

Lemma stable_save_checkpoint cfg env cs epoch step :
  stable R (save_checkpoint cfg env cs epoch step).
Proof.
  intros w. unfold save_checkpoint, bind, gets, lift.
  destruct (checkpoint_due _ _ _) as [[|]|e]; simpl; try reflexivity.
  destruct (Z.eqb step _); apply torch_save_respects, respects_save.
Qed.

Lemma stable_bookkeeping cfg env mts cs epoch step :
  stable R (bookkeeping cfg env mts cs epoch step).
Proof.
  unfold bookkeeping.
  apply stable_bind; [exact _| |intros _].
  { apply stable_modify. intros w. apply respects_incr. }
  apply stable_bind; [exact _|apply stable_gets; exact _|intros gs].
  apply stable_bind; [exact _| |intros _].
  { destruct (_ && _); [apply stable_log|apply stable_ret; exact _]. }
  apply stable_bind; [exact _|apply stable_save_checkpoint|intros _].
  apply stable_ret; exact _.
Qed.

Lemma stable_train_step cfg env mts cs epoch step b :
  stable R (train_step cfg env mts cs epoch step b).
Proof.
  unfold train_step.
  apply stable_bind; [exact _|apply stable_prepare|intros p].
  apply stable_bind; [exact _|apply stable_lift; exact _|intros t].
  apply stable_bind; [exact _|apply stable_optimize|intros _].
  apply stable_bookkeeping.
Qed.

Lemma stable_training cfg env : stable R (train cfg env).
Proof.
  apply stable_train; try exact _.
  - apply respects_reset.
  - intros. apply stable_train_step.
Qed.
End StableStep.

(** ** The optimizer writes only where its references point *)

Section Updates.
Context {F : Framework}.
Implicit Types (w : World F) (upd : param_ref -> tensor F -> tensor F).

Lemma world_eta w :
  w = set_unet_garm (unet_garm w) (set_unet_vton (unet_vton w) w).
Proof. by destruct w. Qed.

Lemma apply_updates_cons upd r refs w :
  apply_updates upd (r :: refs) w =
  apply_updates upd refs (update_param (upd r) r w).
Proof. reflexivity. Qed.

(** Only the two networks can differ after the updates. *)
Lemma apply_updates_shape upd refs w :
  exists g v, apply_updates upd refs w = set_unet_garm g (set_unet_vton v w).
Proof.
  revert w. induction refs as [|[[|] n] refs IH]; intros w.
  - exists (unet_garm w), (unet_vton w). apply world_eta.
  - rewrite apply_updates_cons.
    destruct (IH (update_param (upd (Garm, n)) (Garm, n) w)) as (g & v & ->).
    by exists g, v.
  - rewrite apply_updates_cons.
    destruct (IH (update_param (upd (Vton, n)) (Vton, n) w)) as (g & v & ->).
    by exists g, v.
Qed.

Lemma apply_updates_unet_garm upd refs w :
  (forall r, r ∈ refs -> r.1 = Vton) ->
  unet_garm (apply_updates upd refs w) = unet_garm w.
Proof.
  revert w. induction refs as [|[[|] n] refs IH]; intros w Hall; [done| |].
  - specialize (Hall (Garm, n)). simpl in Hall.
    discriminate Hall. by left.
  - rewrite apply_updates_cons, IH; [done|].
    intros r Hr. apply Hall. by right.
Qed.

Lemma apply_updates_dom upd refs w :
  dom (unet_vton (apply_updates upd refs w)) = dom (unet_vton w).
Proof.
  revert w. induction refs as [|[[|] n] refs IH]; intros w; [done| |];
    rewrite apply_updates_cons, IH; [done|].
  simpl. apply dom_alter_L.
Qed.

Lemma apply_updates_skip upd refs w n :
  (Vton, n) ∉ refs ->
  unet_vton (apply_updates upd refs w) !! n = unet_vton w !! n.
Proof.
  revert w. induction refs as [|[[|] m] refs IH]; intros w Hn; [done| |];
    rewrite apply_updates_cons, IH by (intros ?; apply Hn; by right);
    [done|].
  simpl. apply lookup_alter_ne. intros ->. apply Hn. by left.
Qed.

(** A parameter referenced once receives exactly one update. *)
Lemma apply_updates_unet_vton upd refs w n p :
  NoDup refs -> (Vton, n) ∈ refs ->
  unet_vton w !! n = Some p ->
  unet_vton (apply_updates upd refs w) !! n =
  Some {| data := upd (Vton, n) (data p); requires_grad := requires_grad p |}.
Proof.
  revert w. induction refs as [|r refs IH]; intros w Hnd Hin Hp.
  - by apply elem_of_nil in Hin.
  - apply NoDup_cons in Hnd as [Hr Hnd]. rewrite apply_updates_cons.
    apply elem_of_cons in Hin as [<-|Hin].
    + rewrite apply_updates_skip by exact Hr. simpl.
      rewrite lookup_alter_eq, Hp. done.
    + apply IH; [done..|].
      destruct r as [[|] m]; simpl; [done|].
      rewrite lookup_alter_ne; [done|].
      intros ->. by apply Hr.
Qed.

(** The updated networks depend on the networks only. *)
Lemma apply_updates_nets upd refs w1 w2 :
  unet_garm w1 = unet_garm w2 -> unet_vton w1 = unet_vton w2 ->
  unet_garm (apply_updates upd refs w1) =
    unet_garm (apply_updates upd refs w2) /\
  unet_vton (apply_updates upd refs w1) =
    unet_vton (apply_updates upd refs w2).
Proof.
  revert w1 w2. induction refs as [|[[|] n] refs IH]; intros w1 w2 Hg Hv.
  - done.
  - rewrite !apply_updates_cons. apply IH; simpl; congruence.
  - rewrite !apply_updates_cons. apply IH; simpl; congruence.
Qed.
End Updates.

(** ** Checkpoint loading *)

Section Loading.
Context {F : Framework}.
Implicit Types (unet : gmap string (param F)) (sd : gmap string (tensor F)).

Lemma load_state_dict_tensors unet sd :
  load_state_dict unet (PTensor <$> sd) =
  Ok (merge copy_entry unet (PTensor <$> sd),
      dom unet ∖ dom sd, dom sd ∖ dom unet).
Proof.
  unfold load_state_dict. rewrite dom_fmap_L.
  destruct (decide _) as [|Hno]; [done|]. exfalso. apply Hno.
  apply map_Forall_fmap. intros k t _ _. done.
Qed.

Lemma as_mapping_holds ckpt sd :
  holds_state_dict ckpt sd ->
  as_mapping (select_state_dict ckpt) = Ok (PTensor <$> sd).
Proof.
  unfold select_state_dict. intros [[Hnone ->]| ->]; [|done].
  by rewrite Hnone.
Qed.

Lemma merged_lookup unet sd k :
  merge copy_entry unet (PTensor <$> sd) !! k =
  match unet !! k, sd !! k with
  | Some p, Some t => Some {| data := t; requires_grad := requires_grad p |}
  | Some p, None => Some p
  | None, _ => None
  end.
Proof.
  rewrite lookup_merge, lookup_fmap.
  destruct (unet !! k), (sd !! k); done.
Qed.

Lemma no_unexpected_iff unet sd :
  size (dom sd ∖ dom unet) = 0 <-> dom sd ⊆ dom unet.
Proof.
  rewrite size_empty_iff. split.
  - intros He k Hk. destruct (decide (k ∈ dom unet)); [done|].
    exfalso. apply (not_elem_of_empty (C:=gset string) k).
    apply He. by apply elem_of_difference.
  - intros Hsub. apply elem_of_equiv_empty.
    intros k [Hk Hn]%elem_of_difference. by apply Hn, Hsub.
Qed.

(** What a non-empty checkpoint path does, for a file of the expected
    content. *)
Lemma load_unet_checkpoint_run (env : Env F) path unet ckpt sd :
  path <> "" -> torch_load env path = Ok ckpt ->
  holds_state_dict ckpt sd ->
  load_unet_checkpoint env path unet =
  if decide (dom sd ⊆ dom unet)
  then Ok (merge copy_entry unet (PTensor <$> sd))
  else Raise AssertionError.
Proof.
  intros Hpath Hload Hsd. unfold load_unet_checkpoint.
  apply String.eqb_neq in Hpath. rewrite Hpath, Hload. simpl.
  rewrite (as_mapping_holds _ _ Hsd). simpl.
  rewrite load_state_dict_tensors. simpl.
  destruct (decide _) as [Hsub|Hsub].
  - apply no_unexpected_iff in Hsub. by rewrite Hsub.
  - destruct (Nat.eqb _ 0) eqn:E; [|done].
    apply Nat.eqb_eq, no_unexpected_iff in E. done.
Qed.

(** C5. For a checkpoint file that is a bare state mapping or a wrapper
    with the mapping under "state_dict": if every key of the mapping is a
    parameter name of the model, loading succeeds, the parameters the
    mapping lacks keep their values and the others take the checkpoint's;
    if some key is not a parameter name of the model, loading fails with
    an assertion error. *)
Theorem load_unet_checkpoint_subset_or_assert
    (env : Env F) path unet ckpt sd :
  path <> "" -> torch_load env path = Ok ckpt ->
  holds_state_dict ckpt sd ->
  (dom sd ⊆ dom unet ->
     exists unet',
       load_unet_checkpoint env path unet = Ok unet' /\
       dom unet' = dom unet /\
       (forall k, sd !! k = None -> unet' !! k = unet !! k) /\
       (forall k p t, unet !! k = Some p -> sd !! k = Some t ->
          unet' !! k =
          Some {| data := t; requires_grad := requires_grad p |})) /\
  (~ dom sd ⊆ dom unet ->
     load_unet_checkpoint env path unet = Raise AssertionError).
Proof.
  intros Hpath Hload Hsd.
  rewrite (load_unet_checkpoint_run env path unet ckpt sd) by done.
  split; intros Hsub; destruct (decide _); try done.
  eexists. split; [done|]. split; [|split].
  - apply set_eq. intros k. rewrite !elem_of_dom, merged_lookup.
    destruct (unet !! k), (sd !! k); split; intros [? ?]; eauto; done.
  - intros k Hk. rewrite merged_lookup, Hk. by destruct (unet !! k).
  - intros k p t Hp Ht. by rewrite merged_lookup, Hp, Ht.
Qed.
End Loading.

Lemma load_unet_checkpoint_subset_or_assert_witness :
  (dom ({[ "conv_in.weight" := 7%Z ]} : gmap string Z) ⊆
     dom Example.two_params ->
   exists unet',
     load_unet_checkpoint Example.env_with_file "garm.ckpt"
       Example.two_params = Ok unet' /\
     dom unet' = dom Example.two_params /\
     (forall k, ({[ "conv_in.weight" := 7%Z ]} : gmap string Z) !! k = None ->
        unet' !! k = Example.two_params !! k) /\
     (forall k p t, Example.two_params !! k = Some p ->
        ({[ "conv_in.weight" := 7%Z ]} : gmap string Z) !! k = Some t ->
        unet' !! k =
        Some {| data := t; requires_grad := requires_grad p |})) /\
  (~ dom ({[ "conv_in.weight" := 7%Z ]} : gmap string Z) ⊆
     dom Example.two_params ->
   load_unet_checkpoint Example.env_with_file "garm.ckpt"
     Example.two_params = Raise AssertionError).
Proof.
  apply (load_unet_checkpoint_subset_or_assert (F:=Example.ZF)
           Example.env_with_file "garm.ckpt" Example.two_params
           Example.wrapper_file
           ({[ "conv_in.weight" := 7%Z ]} : gmap string Z)).
  - discriminate.
  - evaluate.
  - right. evaluate.
Defined.

(** ** Model construction *)

Section SetupFacts.
Context {F : Framework}.

Lemma setup_inv (cfg : Config) (env : Env F) (w : World F) :
  setup cfg env = Ok w ->
  exists v c g t ug uv,
    from_pretrained env AutoencoderKL (pretrained_model_path cfg) "vae"
      = Ok v /\
    from_pretrained env ReferenceEncoder (clip_model_path cfg) "" = Ok c /\
    from_pretrained env UNetGarm2DConditionModel UNET_PATH "unet_garm"
      = Ok g /\
    from_pretrained env UNetVton2DConditionModel UNET_PATH "unet_vton"
      = Ok t /\
    load_unet_checkpoint env (unet_garm_checkpoint_path cfg) (new_module g)
      = Ok ug /\
    load_unet_checkpoint env (unet_vton_checkpoint_path cfg) (new_module t)
      = Ok uv /\
    w = {| vae := v; clip := c;
           unet_garm := requires_grad_ true ug;
           unet_vton := requires_grad_ true uv;
           optimizer_params := trainable_params (requires_grad_ true uv);
           optimizer_state :=
             adamw_init F (trainable_params (requires_grad_ true uv));
           rng := seed_rng env; global_step := 0%Z;
           files := []; events := [] |}.
Proof.
  unfold setup, and_then. intros H.
  destruct (from_pretrained env AutoencoderKL _ _) as [v|] eqn:Ev; [|done].
  destruct (from_pretrained env ReferenceEncoder _ _) as [c|] eqn:Ec;
    [|done].
  destruct (from_pretrained env UNetGarm2DConditionModel _ _) as [g|] eqn:Eg;
    [|done].
  destruct (from_pretrained env UNetVton2DConditionModel _ _) as [t|] eqn:Et;
    [|done].
  destruct (load_unet_checkpoint env (unet_garm_checkpoint_path cfg) _)
    as [ug|] eqn:Eug; [|done].
  destruct (load_unet_checkpoint env (unet_vton_checkpoint_path cfg) _)
    as [uv|] eqn:Euv; [|done].
  exists v, c, g, t, ug, uv. simpl in H.
  destruct (enable_xformers_memory_efficient_attention cfg);
    [destruct (is_xformers_available env)|]; simpl in H; try done.
  all: injection H as <-; by repeat split.
Qed.

Lemma state_dict_fresh (g : gmap string (tensor F)) :
  state_dict (requires_grad_ true (new_module g)) = g.
Proof.
  apply map_eq. intros k. unfold state_dict, requires_grad_, new_module.
  rewrite !lookup_fmap. by destruct (g !! k).
Qed.

Lemma load_state_dict_dom (m m' : gmap string (param F)) sd mk uk :
  load_state_dict m sd = Ok (m', mk, uk) -> dom m' = dom m.
Proof.
  unfold load_state_dict. destruct (decide _); [|done].
  intros [= <- _ _]. apply set_eq. intros k.
  rewrite !elem_of_dom, lookup_merge.
  destruct (m !! k) as [p|], (sd !! k) as [[]|];
    split; intros [? ?]; simpl in *; eauto; done.
Qed.

(** Loading never changes which parameters a module has. *)
Lemma load_unet_checkpoint_dom (env : Env F) path
    (unet unet' : gmap string (param F)) :
  load_unet_checkpoint env path unet = Ok unet' -> dom unet' = dom unet.
Proof.
  unfold load_unet_checkpoint, and_then.
  destruct (String.eqb path ""); [by intros [= <-]|].
  destruct (torch_load env path); [|done].
  destruct (as_mapping _); [|done].
  destruct (load_state_dict unet _) as [[[m mk] uk]|] eqn:E; [|done].
  destruct (Nat.eqb _ 0); [|done]. intros [= <-].
  by eapply load_state_dict_dom.
Qed.

Lemma requires_grad_dom b (m : gmap string (param F)) :
  dom (requires_grad_ b m) = dom m.
Proof. apply dom_fmap_L. Qed.

(** After [requires_grad_(True)] every parameter is trainable, so line
    257 collects every parameter of the module, each once. *)
Lemma trainable_params_spec (m : gmap string (param F)) (r : param_ref) :
  r ∈ trainable_params (requires_grad_ true m) <->
  r.1 = Vton /\ is_Some (requires_grad_ true m !! r.2).
Proof.
  unfold trainable_params. rewrite list_elem_of_fmap. split.
  - intros ([k p] & -> & Hin). apply list_elem_of_filter in Hin as [_ Hin].
    apply elem_of_map_to_list in Hin. simpl. eauto.
  - destruct r as [n k]. simpl. intros [-> [p Hp]].
    exists (k, p). split; [done|]. apply list_elem_of_filter. split.
    + simpl. unfold requires_grad_ in Hp. rewrite lookup_fmap in Hp.
      destruct (m !! k); simpl in Hp; [|done]. by injection Hp as <-.
    + by apply elem_of_map_to_list.
Qed.

Lemma trainable_params_NoDup (m : gmap string (param F)) :
  NoDup (trainable_params m).
Proof.
  unfold trainable_params.
  apply NoDup_fmap_2_strong.
  - intros [k1 p1] [k2 p2] [_ H1]%list_elem_of_filter
           [_ H2]%list_elem_of_filter Heq.
    simpl in Heq. injection Heq as ->.
    f_equal. exact (map_to_list_unique m k2 p1 p2 H1 H2).
  - apply NoDup_filter, NoDup_map_to_list.
Qed.

Lemma setup_optimizes_unet_vton (cfg : Config) (env : Env F) w :
  setup cfg env = Ok w -> optimizes_unet_vton w.
Proof.
  intros (v & c & g & t & ug & uv & _ & _ & _ & _ & _ & _ & ->)%setup_inv.
  split; simpl.
  - apply trainable_params_NoDup.
  - intros r. apply trainable_params_spec.
Qed.
End SetupFacts.

(** ** Which parameters training can change *)

Section Frame.
Context {F : Framework}.

#[local] Instance garm_frame_preorder : PreOrder (@garm_frame F).
Proof.
  split.
  - intros w. by repeat split.
  - intros w1 w2 w3 (Hp & Hd & Hg) (Hp' & Hd' & Hg'). repeat split.
    + congruence.
    + congruence.
    + intros Hall. rewrite Hg', Hg; [done..|].
      rewrite Hp. exact Hall.
Qed.

#[local] Instance garm_frame_respects : Respects (@garm_frame F).
Proof.
  split; try exact _; try (intros; by repeat split).
  intros w upd. repeat split.
  - by destruct (apply_updates_shape upd (optimizer_params w) w)
      as (g & v & ->).
  - apply apply_updates_dom.
  - apply apply_updates_unet_garm.
Qed.

Lemma garm_frame_optimizes (w w' : World F) :
  garm_frame w w' -> optimizes_unet_vton w ->
  unet_garm w' = unet_garm w /\ optimizes_unet_vton w'.
Proof.
  intros (Hp & Hd & Hg) [Hnd Hin]. split.
  - apply Hg. intros r Hr. by apply Hin in Hr as [? _].
  - split; rewrite Hp; [done|]. intros r. rewrite Hin.
    by rewrite <-!elem_of_dom, Hd.
Qed.

(** C2, as the code has it. After [setup] the optimizer's references are
    exactly the parameters of the try-on network; whatever a run of the
    training loop does, the garment network ends with the parameters it
    started with; and one optimizer step leaves the garment network
    alone while every parameter of the try-on network receives the
    optimizer's update. *)
Theorem optimizer_reaches_only_unet_vton
    (cfg : Config) (env : Env F) (w0 : World F) :
  setup cfg env = Ok w0 ->
  optimizes_unet_vton w0 /\
  (forall w' o, train cfg env w0 = (w', o) ->
     unet_garm w' = unet_garm w0 /\ optimizes_unet_vton w') /\
  (forall (w : World F) loss mixed,
     optimizes_unet_vton w ->
     unet_garm (optimizer_step loss mixed w).1 = unet_garm w /\
     forall n p, unet_vton w !! n = Some p ->
       unet_vton (optimizer_step loss mixed w).1 !! n =
       Some {| data := optim_update F (optimizer_state w) loss mixed
                         (Vton, n) (data p);
               requires_grad := requires_grad p |}).
Proof.
  intros Hsetup. pose proof (setup_optimizes_unet_vton _ _ _ Hsetup) as H0.
  split; [exact H0|]. split.
  - intros w' o Hrun. apply garm_frame_optimizes; [|exact H0].
    pose proof (stable_training garm_frame cfg env w0) as Hst.
    by rewrite Hrun in Hst.
  - intros w loss mixed [Hnd Hin]. unfold optimizer_step, bind, modify, log.
    simpl. split.
    + apply apply_updates_unet_garm. intros r Hr. by apply Hin in Hr as [? _].
    + intros n p Hp. apply apply_updates_unet_vton; [done| |done].
      apply Hin. simpl. eauto.
Qed.
End Frame.

Lemma optimizer_reaches_only_unet_vton_witness :
  let c := Example.cfg 2 1 1 in
  let e := Example.env 0 2 in
  let w0 := Example.world0 c e in
  setup c e = Ok w0 /\
  optimizes_unet_vton w0 /\
  (forall w' o, train c e w0 = (w', o) ->
     unet_garm w' = unet_garm w0 /\ optimizes_unet_vton w') /\
  (forall (w : World Example.ZF) loss mixed,
     optimizes_unet_vton w ->
     unet_garm (optimizer_step loss mixed w).1 = unet_garm w /\
     forall n p, unet_vton w !! n = Some p ->
       unet_vton (optimizer_step loss mixed w).1 !! n =
       Some {| data := optim_update Example.ZF (optimizer_state w) loss mixed
                         (Vton, n) (data p);
               requires_grad := requires_grad p |}).
Proof.
  intros c e w0. split; [evaluate|].
  apply (optimizer_reaches_only_unet_vton c e w0). evaluate.
Defined.

(** C2 as worded does not hold: after [setup] the garment network has a
    parameter that the optimizer holds no reference to, and a training
    step whose optimizer adds one to every tensor it updates leaves that
    parameter at its loaded value while the try-on network's moves. *)
Lemma unet_garm_is_not_optimized :
  let c := Example.cfg 2 1 1 in
  let e := Example.env 0 2 in
  let w0 := Example.world0 c e in
  setup c e = Ok w0 /\
  ~ all_parameters_optimized w0 /\
  let w1 := (train_step c e 2 1 0 0 Example.batch0 w0).1 in
  state_dict (unet_garm w0) !! "conv_in.weight" = Some 2%Z /\
  state_dict (unet_garm w1) !! "conv_in.weight" = Some 2%Z /\
  state_dict (unet_vton w0) !! "conv_in.weight" = Some 2%Z /\
  state_dict (unet_vton w1) !! "conv_in.weight" = Some 3%Z.
Proof.
  intros c e w0. split; [evaluate|]. split.
  - intros H. destruct (H "conv_in.weight") as [Hg _].
    assert (Hin : (Garm, "conv_in.weight") ∈ optimizer_params w0).
    { apply Hg. vm_compute. eauto. }
    vm_compute in Hin. apply list_elem_of_singleton in Hin. discriminate.
  - vm_compute. done.
Qed.

(** ** Where the pretrained weights come from *)

Section Sources.
Context {F : Framework}.

(** C7, as the code has it. Whatever [pretrained_model_path] is, the two
    networks are constructed from the sub-paths "unet_garm" and
    "unet_vton" of the constant [UNET_PATH]; [pretrained_model_path]
    supplies the image encoder/decoder only.  A non-empty checkpoint path
    is loaded into the network so constructed; it never changes which
    parameters the network has, and with an empty path the network holds
    exactly the weights found under [UNET_PATH]. *)
Theorem unets_loaded_from_UNET_PATH
    (cfg : Config) (env : Env F) (w : World F) :
  setup cfg env = Ok w ->
  exists v g t ug uv,
    from_pretrained env AutoencoderKL (pretrained_model_path cfg) "vae"
      = Ok v /\ vae w = v /\
    from_pretrained env UNetGarm2DConditionModel UNET_PATH "unet_garm"
      = Ok g /\
    from_pretrained env UNetVton2DConditionModel UNET_PATH "unet_vton"
      = Ok t /\
    load_unet_checkpoint env (unet_garm_checkpoint_path cfg) (new_module g)
      = Ok ug /\ unet_garm w = requires_grad_ true ug /\
    load_unet_checkpoint env (unet_vton_checkpoint_path cfg) (new_module t)
      = Ok uv /\ unet_vton w = requires_grad_ true uv /\
    dom (unet_garm w) = dom g /\ dom (unet_vton w) = dom t /\
    (unet_garm_checkpoint_path cfg = "" -> state_dict (unet_garm w) = g) /\
    (unet_vton_checkpoint_path cfg = "" -> state_dict (unet_vton w) = t).
Proof.
  intros (v & c & g & t & ug & uv & Hv & _ & Hg & Ht & Hug & Huv & ->)
         %setup_inv.
  exists v, g, t, ug, uv. simpl.
  repeat (split; [done|]). split; [|split; [|split]].
  - rewrite requires_grad_dom, (load_unet_checkpoint_dom _ _ _ _ Hug).
    apply dom_fmap_L.
  - rewrite requires_grad_dom, (load_unet_checkpoint_dom _ _ _ _ Huv).
    apply dom_fmap_L.
  - intros Hp. unfold load_unet_checkpoint in Hug. rewrite Hp in Hug.
    injection Hug as <-. apply state_dict_fresh.
  - intros Hp. unfold load_unet_checkpoint in Huv. rewrite Hp in Huv.
    injection Huv as <-. apply state_dict_fresh.
Qed.
End Sources.

Lemma unets_loaded_from_UNET_PATH_witness :
  let c := Example.cfg 2 1 1 in
  let e := Example.env 0 2 in
  let w := Example.world0 c e in
  setup c e = Ok w /\
  exists v g t ug uv,
    from_pretrained e AutoencoderKL (pretrained_model_path c) "vae"
      = Ok v /\ vae w = v /\
    from_pretrained e UNetGarm2DConditionModel UNET_PATH "unet_garm"
      = Ok g /\
    from_pretrained e UNetVton2DConditionModel UNET_PATH "unet_vton"
      = Ok t /\
    load_unet_checkpoint e (unet_garm_checkpoint_path c) (new_module g)
      = Ok ug /\ unet_garm w = requires_grad_ true ug /\
    load_unet_checkpoint e (unet_vton_checkpoint_path c) (new_module t)
      = Ok uv /\ unet_vton w = requires_grad_ true uv /\
    dom (unet_garm w) = dom g /\ dom (unet_vton w) = dom t /\
    (unet_garm_checkpoint_path c = "" -> state_dict (unet_garm w) = g) /\
    (unet_vton_checkpoint_path c = "" -> state_dict (unet_vton w) = t).
Proof.
  intros c e w. split; [evaluate|].
  apply (unets_loaded_from_UNET_PATH c e w). evaluate.
Defined.

(** C7 as worded does not hold: with the base-model directory set to
    "models/stable-diffusion-v1-5" and no checkpoint paths, the garment
    network holds the weights of [UNET_PATH], not those found under the
    base-model directory. *)
Lemma unets_not_from_base_model :
  let c := Example.cfg 2 1 1 in
  let e := Example.env 0 2 in
  let w := Example.world0 c e in
  setup c e = Ok w /\
  unet_garm_checkpoint_path c = "" /\ unet_vton_checkpoint_path c = "" /\
  ~ unets_from_base_model c e w.
Proof.
  intros c e w. repeat (split; [evaluate|]).
  intros [H _].
  apply (f_equal (fun o => match o with
                           | Ok m => m !! "conv_in.weight"
                           | Raise _ => None
                           end)) in H.
  vm_compute in H. discriminate.
Qed.

(** ** One training step, phase by phase *)

Section Phases.
Context {F : Framework}.
Implicit Types (w : World F) (cfg : Config) (env : Env F).

(** Lines 417-464 draw from the generator and log the noise; nothing else
    changes, and only the dropout can fail. *)
Lemma prepare_run cfg (b : Batch F) w :
  exists n ts nl r,
    prepare cfg b w =
    (set_rng r (set_events (events w ++ [EvNoise n]) w),
     try ehs <- cfg_dropout (zero F) (drop_image_embeds b)
                  (Tensor.unsqueeze1
                     (clip_image_encoder F (clip w) (clip_ref_image b)));
     Ok {| p_noise := n; p_timesteps := ts; p_noisy_latents := nl;
           p_encoder_hidden_states := ehs |}).
Proof.
  unfold prepare, bind, gets, sample, log, modify, lift, ret. simpl.
  destruct (vae_encode_sample F (vae w) (pixel_values b) (rng w))
    as [l r1]. simpl.
  destruct (vae_encode_sample F (vae w) (pixel_values_ref_img b) r1)
    as [l' r2]. simpl.
  destruct (randn_like F (scale_latents F l) r2) as [n r3]. simpl.
  destruct (randint F (num_train_timesteps cfg)
              (shape0 F (scale_latents F l)) r3) as [ts r4]. simpl.
  exists n, ts, (add_noise F (scale_latents F l) n ts), r4.
  unfold and_then. destruct (cfg_dropout _ _ _); reflexivity.
Qed.

(** The same, with the tensors named: the noise of the step is the
    tensor drawn by [randn_like] on the latents. *)
Lemma prepare_draws cfg (b : Batch F) w :
  prepare cfg b w =
  (set_rng (timesteps_drawn cfg w b).2
     (set_events (events w ++ [EvNoise (noise_drawn w b).1]) w),
   try ehs <- cfg_dropout (zero F) (drop_image_embeds b)
                (Tensor.unsqueeze1
                   (clip_image_encoder F (clip w) (clip_ref_image b)));
   Ok {| p_noise := (noise_drawn w b).1;
         p_timesteps := (timesteps_drawn cfg w b).1;
         p_noisy_latents :=
           add_noise F (latents_drawn w b).1 (noise_drawn w b).1
                     (timesteps_drawn cfg w b).1;
         p_encoder_hidden_states := ehs |}).
Proof.
  unfold timesteps_drawn, noise_drawn, latents_drawn.
  unfold prepare, bind, gets, sample, log, modify, lift, ret. simpl.
  destruct (vae_encode_sample F (vae w) (pixel_values b) (rng w))
    as [l r1]. simpl.
  destruct (vae_encode_sample F (vae w) (pixel_values_ref_img b) r1)
    as [l' r2]. simpl.
  destruct (randn_like F (scale_latents F l) r2) as [n r3]. simpl.
  destruct (randint F (num_train_timesteps cfg)
              (shape0 F (scale_latents F l)) r3) as [ts r4]. simpl.
  unfold and_then. destruct (cfg_dropout _ _ _); reflexivity.
Qed.

Lemma get_target_epsilon (noise : tensor F) :
  get_target "epsilon" noise = Ok noise.
Proof. reflexivity. Qed.

Lemma get_target_other pt (noise : tensor F) :
  pt <> "epsilon" ->
  get_target pt noise =
  Raise (if String.eqb pt "v_prediction" then NotImplementedError
         else ValueError ("Unknown prediction type " +:+ pt)).
Proof.
  intros Hpt. unfold get_target.
  apply String.eqb_neq in Hpt. rewrite Hpt.
  by destruct (String.eqb pt "v_prediction").
Qed.

(** Lines 478-520 never raise; they log the forward pass, the loss and
    the optimizer step, and leave counter and files alone. *)
Lemma optimize_run cfg (p : Prepared) (t : tensor F) w :
  exists w',
    optimize cfg p t w = (w', Ok tt) /\
    events w' = events w ++
      [EvForward (p_noisy_latents p) (p_timesteps p)
                 (p_encoder_hidden_states p);
       EvLoss (unet_vton_forward F (state_dict (unet_vton w))
                 (p_noisy_latents p) (p_timesteps p)
                 (p_encoder_hidden_states p)) t;
       EvOptimizerStep] /\
    global_step w' = global_step w /\ files w' = files w /\
    clip w' = clip w.
Proof.
  unfold optimize, forward, optimizer_step, bind, gets, log, modify. simpl.
  eexists. split; [reflexivity|]. simpl.
  match goal with
  | |- context [apply_updates ?u ?l ?w0] =>
      destruct (apply_updates_shape u l w0) as (g & v & ->)
  end.
  simpl. rewrite <-!app_assoc. done.
Qed.

(** The loss that reaches the optimizer is the mean squared error
    between the prediction and the target handed in. *)
Lemma optimize_loss cfg (p : Prepared) (t : tensor F) w :
  let pred := unet_vton_forward F (state_dict (unet_vton w))
                (p_noisy_latents p) (p_timesteps p)
                (p_encoder_hidden_states p) in
  let loss := mse_loss F pred t in
  let mixed := mixed_precision_training cfg in
  let w' := (optimize cfg p t w).1 in
  optimizer_state w' =
    lr_scheduler_step F (optim_next F (optimizer_state w) loss mixed) /\
  unet_garm w' =
    unet_garm (apply_updates (optim_update F (optimizer_state w) loss mixed)
                             (optimizer_params w) w) /\
  unet_vton w' =
    unet_vton (apply_updates (optim_update F (optimizer_state w) loss mixed)
                             (optimizer_params w) w).
Proof.
  unfold optimize, forward, optimizer_step, bind, gets, log, modify. simpl.
  split; [reflexivity|]. by apply apply_updates_nets.
Qed.

Lemma recorded_step_record path epoch w :
  recorded_step (path, checkpoint_record epoch w) = Some (global_step w).
Proof.
  unfold recorded_step, checkpoint_record. simpl.
  rewrite lookup_insert_ne by done. by rewrite lookup_insert_eq.
Qed.

(** Lines 536-548. *)
Lemma save_checkpoint_run cfg env cs epoch step w :
  save_checkpoint cfg env cs epoch step w =
  match checkpoint_due (is_main_process env) (global_step w) cs with
  | Raise e => (w, Raise e)
  | Ok false => (w, Ok tt)
  | Ok true =>
      let dir := path_join (run_output_dir cfg env) "checkpoints" in
      let file :=
        if Z.eqb step (Z.of_nat (dataloader_len env) - 1)
        then epoch_checkpoint_name epoch
        else step_checkpoint_name (global_step w) in
      (set_events (events w ++ [EvSave (path_join dir file)])
         (set_files (files w ++
                       [(path_join dir file, checkpoint_record epoch w)])
                    w),
       Ok tt)
  end.
Proof.
  unfold save_checkpoint, bind, gets, lift.
  destruct (checkpoint_due _ _ _) as [[|]|e]; try reflexivity.
  simpl. by destruct (Z.eqb step _).
Qed.

(** Lines 526-603 only add to the log and to the files, and move the
    counter. *)
Lemma bookkeeping_keeps cfg env mts cs epoch step w :
  let w' := (bookkeeping cfg env mts cs epoch step w).1 in
  (exists es, events w' = events w ++ es) /\
  optimizer_state w' = optimizer_state w /\
  unet_garm w' = unet_garm w /\ unet_vton w' = unet_vton w.
Proof.
  unfold bookkeeping, bind, gets, ret.
  destruct (is_main_process env && negb (is_debug cfg) && use_wandb cfg);
    unfold log, modify; cbv beta iota zeta;
    rewrite save_checkpoint_run;
    cbn [global_step set_events set_global_step];
    destruct (checkpoint_due _ _ _) as [[|]|];
    cbn [fst events set_events set_files set_global_step optimizer_state
         unet_garm unet_vton];
    rewrite <-?app_assoc; eauto using app_nil_r.
Qed.
End Phases.

(** ** The regression target *)

Section Target.
Context {F : Framework}.

(** C6. With prediction type "epsilon" the regression target is the
    sampled noise: in a step whose batch passes the guidance dropout, the
    tensor that [randn_like] draws on the latents is the one logged as
    sampled, the one added to the latents for the forward pass, and the
    target of the loss; the loss that drives the optimizer step is the
    mean squared error between the prediction and that tensor.  With any
    other prediction type the step raises, and it does so before the
    forward pass of the denoising network: no forward pass is logged, and
    network and counter are untouched; the error is
    [NotImplementedError] for "v_prediction" and [ValueError] otherwise,
    unless preparing the batch had already failed. *)
Theorem target_is_noise_or_error
    (cfg : Config) (env : Env F) (mts cs epoch step : Z) (b : Batch F)
    (w : World F) :
  (prediction_type cfg = "epsilon" ->
     (forall noise : tensor F,
        get_target (prediction_type cfg) noise = Ok noise) /\
     train_step cfg env mts cs epoch step b w =
     (do p <- prepare cfg b;
      do_ optimize cfg p (p_noise p);
      bookkeeping cfg env mts cs epoch step) w /\
     forall ehs,
       cfg_dropout (zero F) (drop_image_embeds b)
         (Tensor.unsqueeze1
            (clip_image_encoder F (clip w) (clip_ref_image b))) = Ok ehs ->
       let noise := (noise_drawn w b).1 in
       let timesteps := (timesteps_drawn cfg w b).1 in
       let noisy_latents :=
         add_noise F (latents_drawn w b).1 noise timesteps in
       let model_pred :=
         unet_vton_forward F (state_dict (unet_vton w))
                           noisy_latents timesteps ehs in
       let loss := mse_loss F model_pred noise in
       let mixed := mixed_precision_training cfg in
       let w' := (train_step cfg env mts cs epoch step b w).1 in
       take 4 (new_events w w') =
         [EvNoise noise; EvForward noisy_latents timesteps ehs;
          EvLoss model_pred noise; EvOptimizerStep] /\
       optimizer_state w' =
         lr_scheduler_step F
           (optim_next F (optimizer_state w) loss mixed) /\
       unet_vton w' =
         unet_vton
           (apply_updates (optim_update F (optimizer_state w) loss mixed)
                          (optimizer_params w) w)) /\
  (prediction_type cfg <> "epsilon" ->
     exists w' e,
       train_step cfg env mts cs epoch step b w = (w', Raise e) /\
       (forall ev, ev ∈ new_events w w' -> is_forward ev = false) /\
       unet_vton w' = unet_vton w /\
       global_step w' = global_step w /\
       (is_ok (prepare cfg b w).2 = true ->
        e = if String.eqb (prediction_type cfg) "v_prediction"
            then NotImplementedError
            else ValueError ("Unknown prediction type " +:+
                             prediction_type cfg))).
Proof.
  split.
  - intros Hpt. split; [intros noise; by rewrite Hpt|].
    split.
    { unfold train_step, bind. destruct (prepare cfg b w) as [w1 [p|e]];
        [|reflexivity].
      by rewrite Hpt. }
    intros ehs Hehs noise timesteps noisy_latents model_pred loss mixed.
    unfold train_step, bind. rewrite prepare_draws, Hehs.
    unfold and_then, lift. cbv beta iota. cbn [p_noise].
    rewrite Hpt, get_target_epsilon. cbv beta iota.
    fold noise timesteps noisy_latents.
    set (w1 := set_rng _ _).
    set (p := Build_Prepared _ _ _ _).
    destruct (optimize_run cfg p noise w1) as (w2 & Hrun & Hev & _).
    pose proof (optimize_loss cfg p noise w1) as (Hst & _ & Hv).
    rewrite Hrun in Hst, Hv |- *. cbv beta iota.
    destruct (bookkeeping_keeps cfg env mts cs epoch step w2)
      as ((es & Hes) & Hst3 & _ & Hv3).
    destruct (bookkeeping cfg env mts cs epoch step w2) as [w3 o].
    cbn [fst] in *.
    split; [|split].
    + unfold new_events. rewrite Hes, Hev. subst w1.
      cbn [events set_rng set_events].
      rewrite <-!app_assoc, drop_app_length. reflexivity.
    + rewrite Hst3, Hst. reflexivity.
    + rewrite Hv3, Hv. subst w1.
      by apply apply_updates_nets.
  - intros Hpt. unfold train_step, bind.
    destruct (prepare_run cfg b w) as (n & ts & nl & r & ->).
    assert (Hnew : forall ev,
              ev ∈ new_events w
                     (set_rng r (set_events (events w ++ [EvNoise n]) w)) ->
              is_forward ev = false).
    { intros ev. unfold new_events. simpl. rewrite drop_app_length.
      intros ->%list_elem_of_singleton. reflexivity. }
    unfold and_then. destruct (cfg_dropout _ _ _) as [ehs|e]; simpl.
    + rewrite get_target_other by done. simpl. eauto 10.
    + do 2 eexists. repeat split; [exact Hnew|done].
Qed.
End Target.

Lemma target_is_noise_or_error_witness :
  let c := Example.cfg 2 1 1 in
  let c' := Example.cfg_v_prediction in
  let e := Example.env 0 2 in
  let w := Example.world0 c e in
  let b := Example.batch0 in
  (prediction_type c = "epsilon" /\
   cfg_dropout 0%Z (drop_image_embeds b)
     (Tensor.unsqueeze1
        (clip_image_encoder Example.ZF (clip w) (clip_ref_image b))) =
     Ok [[[0; 0]]]%Z /\
   let w' := (train_step c e 2 1 0 0 b w).1 in
   take 4 (new_events w w') =
     [@EvNoise Example.ZF 44%Z;
      @EvForward Example.ZF 44%Z 45%Z [[[0; 0]]]%Z;
      @EvLoss Example.ZF 44%Z 44%Z;
      @EvOptimizerStep Example.ZF] /\
   optimizer_state w' = 1%Z) /\
  (prediction_type c' <> "epsilon" /\
   exists w' err,
     train_step c' e 2 1 0 0 b w = (w', Raise err) /\
     (forall ev, ev ∈ new_events w w' -> is_forward ev = false) /\
     unet_vton w' = unet_vton w /\
     global_step w' = global_step w /\
     (is_ok (prepare c' b w).2 = true ->
      err = if String.eqb (prediction_type c') "v_prediction"
            then NotImplementedError
            else ValueError ("Unknown prediction type " +:+
                             prediction_type c'))).
Proof.
  intros c c' e w b. split.
  - split; [reflexivity|]. split; [evaluate|].
    destruct (proj1 (target_is_noise_or_error c e 2 1 0 0 b w) eq_refl)
      as (_ & _ & H).
    destruct (H [[[0; 0]]]%Z ltac:(evaluate)) as (Hev & Hst & _).
    split; [exact Hev | exact Hst].
  - split; [discriminate|].
    apply (target_is_noise_or_error c' e 2 1 0 0 b w).
    discriminate.
Defined.

(** ** Step counts given as -1 *)

Section DerivedSteps.
Context {F : Framework}.

Lemma run_batches_ext (cfg cfg' : Config) (env : Env F)
    mts cs epoch batches :
  (forall step b, train_step cfg' env mts cs epoch step b =
                  train_step cfg env mts cs epoch step b) ->
  run_batches cfg' env mts cs epoch batches =
  run_batches cfg env mts cs epoch batches.
Proof.
  intros H. induction batches as [|[step b] rest IH]; simpl; [done|].
  by rewrite H, IH.
Qed.

Lemma run_epochs_ext (cfg cfg' : Config) (env : Env F) mts cs epochs :
  (forall epoch step b, train_step cfg' env mts cs epoch step b =
                        train_step cfg env mts cs epoch step b) ->
  run_epochs cfg' env mts cs epochs = run_epochs cfg env mts cs epochs.
Proof.
  intros H. induction epochs as [|epoch rest IH]; simpl; [done|].
  rewrite IH. by rewrite (run_batches_ext cfg cfg').
Qed.

Lemma resolve_steps_given steps epochs len :
  steps <> (-1)%Z -> resolve_steps steps epochs len = Ok steps.
Proof.
  intros H. unfold resolve_steps.
  by destruct (Z.eqb_spec steps (-1)).
Qed.

Lemma resolve_steps_derived epochs (len : nat) :
  epochs <> (-1)%Z ->
  resolve_steps (-1) epochs (Z.of_nat len) = Ok (epochs * Z.of_nat len)%Z /\
  (epochs * Z.of_nat len)%Z <> (-1)%Z.
Proof.
  intros H. unfold resolve_steps. simpl.
  destruct (Z.eqb_spec epochs (-1)); [done|]. split; [done|].
  generalize (Nat2Z.is_nonneg len). generalize (Z.of_nat len).
  intros L HL. destruct (Z.eq_dec L 0%Z) as [->|]; [lia|].
  assert (epochs <= -2 \/ 0 <= epochs)%Z as [|] by lia; nia.
Qed.

Lemma resolve_steps_raise steps epochs len x :
  resolve_steps steps epochs len = Raise x -> x = AssertionError.
Proof.
  unfold resolve_steps.
  destruct (Z.eqb steps (-1)); [|done].
  destruct (Z.eqb epochs (-1)); simpl; [|done]. by intros [= <-].
Qed.

(** C10. With [max_train_steps = -1]: if [max_train_epoch] is -1 as well
    the run fails with an assertion error and the world is as it was (no
    step was taken); otherwise the run is the run with [max_train_steps]
    set to [max_train_epoch * len(train_dataloader)].  The same holds for
    [checkpointing_steps] and [checkpointing_epochs]. *)
Theorem step_counts_derived_from_epochs
    (cfg : Config) (env : Env F) (w : World F) :
  let len := Z.of_nat (dataloader_len env) in
  (max_train_steps cfg = (-1)%Z ->
     (max_train_epoch cfg = (-1)%Z ->
        train cfg env w = (w, Raise AssertionError)) /\
     (max_train_epoch cfg <> (-1)%Z ->
        train cfg env w =
        train (with_max_train_steps (max_train_epoch cfg * len) cfg)
              env w)) /\
  (checkpointing_steps cfg = (-1)%Z ->
     (checkpointing_epochs cfg = (-1)%Z ->
        train cfg env w = (w, Raise AssertionError)) /\
     (checkpointing_epochs cfg <> (-1)%Z ->
        train cfg env w =
        train (with_checkpointing_steps (checkpointing_epochs cfg * len)
                                        cfg) env w)).
Proof.
  intros len. subst len. split; intros Hs; split; intros He.
  - unfold train. by rewrite Hs, He.
  - unfold train. simpl. rewrite Hs.
    destruct (resolve_steps_derived _ (dataloader_len env) He) as [-> Hne].
    rewrite (resolve_steps_given _ _ _ Hne).
    unfold bind, lift.
    destruct (resolve_steps (checkpointing_steps cfg) _ _); [|done].
    destruct (ceil_div _ _); [|done]. destruct (ceil_div _ _); [|done].
    simpl. by rewrite (run_epochs_ext cfg (with_max_train_steps _ cfg)).
  - unfold train, bind, lift. rewrite Hs, He.
    destruct (resolve_steps (max_train_steps cfg) _ _) as [m|x] eqn:E;
      [reflexivity|].
    by rewrite (resolve_steps_raise _ _ _ _ E).
  - unfold train. simpl. rewrite Hs.
    destruct (resolve_steps_derived _ (dataloader_len env) He) as [-> Hne].
    rewrite (resolve_steps_given _ _ _ Hne).
    unfold bind, lift.
    destruct (resolve_steps (max_train_steps cfg) _ _); [|done].
    destruct (ceil_div _ _); [|done]. destruct (ceil_div _ _); [|done].
    simpl. by rewrite (run_epochs_ext cfg (with_checkpointing_steps _ cfg)).
Qed.
End DerivedSteps.

Lemma step_counts_derived_from_epochs_witness :
  let e := Example.env 0 2 in
  let w := Example.world0 (Example.cfg 2 1 1) e in
  let len := Z.of_nat (dataloader_len e) in
  (max_train_steps (Example.cfg_epochs (-1) 5) = (-1)%Z /\
   max_train_epoch (Example.cfg_epochs (-1) 5) = (-1)%Z /\
   train (Example.cfg_epochs (-1) 5) e w = (w, Raise AssertionError)) /\
  (max_train_steps (Example.cfg_epochs 3 5) = (-1)%Z /\
   max_train_epoch (Example.cfg_epochs 3 5) <> (-1)%Z /\
   train (Example.cfg_epochs 3 5) e w =
   train (with_max_train_steps
            (max_train_epoch (Example.cfg_epochs 3 5) * len)
            (Example.cfg_epochs 3 5)) e w) /\
  (checkpointing_steps (Example.cfg_epochs 3 (-1)) = (-1)%Z /\
   checkpointing_epochs (Example.cfg_epochs 3 (-1)) = (-1)%Z /\
   train (Example.cfg_epochs 3 (-1)) e w = (w, Raise AssertionError)) /\
  (checkpointing_steps (Example.cfg_epochs 3 5) = (-1)%Z /\
   checkpointing_epochs (Example.cfg_epochs 3 5) <> (-1)%Z /\
   train (Example.cfg_epochs 3 5) e w =
   train (with_checkpointing_steps
            (checkpointing_epochs (Example.cfg_epochs 3 5) * len)
            (Example.cfg_epochs 3 5)) e w).
Proof.
  intros e w len. split; [|split; [|split]].
  - split; [reflexivity|]. split; [reflexivity|].
    apply (proj1 (step_counts_derived_from_epochs
                    (Example.cfg_epochs (-1) 5) e w)); reflexivity.
  - split; [reflexivity|]. split; [discriminate|].
    apply (proj1 (step_counts_derived_from_epochs
                    (Example.cfg_epochs 3 5) e w));
      [reflexivity|discriminate].
  - split; [reflexivity|]. split; [reflexivity|].
    apply (proj2 (step_counts_derived_from_epochs
                    (Example.cfg_epochs 3 (-1)) e w)); reflexivity.
  - split; [reflexivity|]. split; [discriminate|].
    apply (proj2 (step_counts_derived_from_epochs
                    (Example.cfg_epochs 3 5) e w));
      [reflexivity|discriminate].
Defined.

(** ** Checkpoint files *)

Section CheckpointFiles.
Context {F : Framework}.
Implicit Types (w : World F) (cfg : Config) (env : Env F).

Lemma app_String (c : ascii) (s t : string) :
  String c s +:+ t = String c (s +:+ t).
Proof. reflexivity. Qed.

Lemma string_app_cancel (p a b : string) : p +:+ a = p +:+ b -> a = b.
Proof.
  induction p as [|c p IH]; [done|].
  rewrite !app_String. intros [= H]. auto.
Qed.

(** Joining a directory with a relative name prepends a prefix that
    depends on the directory only. *)
Lemma path_join_relative (dir : string) :
  exists prefix, forall file,
    starts_with_slash file = false -> path_join dir file = prefix +:+ file.
Proof.
  unfold path_join. destruct (String.eqb dir "").
  - exists "". intros file ->. reflexivity.
  - destruct (ends_with_slash dir).
    + exists dir. by intros file ->.
    + exists (dir +:+ "/"). intros file ->.
      induction dir as [|c dir IH]; [reflexivity|].
      rewrite !app_String. f_equal. exact IH.
Qed.

Lemma checkpoint_names_differ (dir : string) (e g : Z) :
  path_join dir (epoch_checkpoint_name e) <>
  path_join dir (step_checkpoint_name g).
Proof.
  destruct (path_join_relative dir) as [prefix Hp].
  rewrite !Hp by reflexivity. intros H%string_app_cancel.
  unfold epoch_checkpoint_name, step_checkpoint_name in H.
  rewrite !app_String in H. discriminate H.
Qed.

(** C8. When a checkpoint is due, exactly one file is written: under the
    name built from the epoch (plus one) if the batch is the last of the
    data loader, under the name built from the global step otherwise;
    the two names can never coincide. *)
Theorem checkpoint_named_by_epoch_or_step cfg env cs epoch step w :
  checkpoint_due (is_main_process env) (global_step w) cs = Ok true ->
  let dir := path_join (run_output_dir cfg env) "checkpoints" in
  let w' := (save_checkpoint cfg env cs epoch step w).1 in
  (step = (Z.of_nat (dataloader_len env) - 1)%Z ->
     files w' = files w ++
       [(path_join dir ("checkpoint-epoch-" +:+ fmt_int (epoch + 1)
                        +:+ ".ckpt"),
         checkpoint_record epoch w)]) /\
  (step <> (Z.of_nat (dataloader_len env) - 1)%Z ->
     files w' = files w ++
       [(path_join dir ("checkpoint-global_step-" +:+
                        fmt_int (global_step w) +:+ ".ckpt"),
         checkpoint_record epoch w)]) /\
  (forall e g : Z,
     path_join dir ("checkpoint-epoch-" +:+ fmt_int (e + 1) +:+ ".ckpt") <>
     path_join dir ("checkpoint-global_step-" +:+ fmt_int g +:+ ".ckpt")).
Proof.
  intros Hdue dir w'. subst w'.
  rewrite save_checkpoint_run, Hdue. simpl. fold dir.
  split; [|split].
  - intros ->. by rewrite Z.eqb_refl.
  - intros Hne. apply Z.eqb_neq in Hne. by rewrite Hne.
  - intros e g. apply (checkpoint_names_differ dir e g).
Qed.

#[local] Instance writes_records_preorder : PreOrder (@writes_records F).
Proof.
  split.
  - intros w. exists []. by rewrite app_nil_r.
  - intros w1 w2 w3 (n1 & H1 & F1) (n2 & H2 & F2).
    exists (n1 ++ n2). rewrite H2, H1, app_assoc. split; [done|].
    by apply Forall_app.
Qed.

#[local] Instance writes_records_respects : Respects (@writes_records F).
Proof.
  split; try exact _;
    try (intros; exists []; simpl; by rewrite app_nil_r).
  - intros w upd. exists [].
    destruct (apply_updates_shape upd (optimizer_params w) w)
      as (g & v & ->).
    simpl. by rewrite app_nil_r.
  - intros w epoch path. eexists. split; [reflexivity|].
    apply Forall_singleton. simpl. eauto.
Qed.

(** C9. A checkpoint record has exactly the four keys "epoch",
    "global_step", "unet_garm_state_dict" and "unet_vton_state_dict",
    bound to the epoch index, the counter and the two state
    dictionaries; it does not depend on the optimizer's state.  Every
    file a run of [main] writes holds such a record. *)
Theorem checkpoint_record_has_four_fields :
  (forall epoch w,
     dom (checkpoint_record epoch w) =
       ({[ "epoch"; "global_step"; "unet_garm_state_dict";
           "unet_vton_state_dict" ]} : gset string) /\
     size (checkpoint_record epoch w) = 4 /\
     checkpoint_record epoch w !! "epoch" = Some (PInt epoch) /\
     checkpoint_record epoch w !! "global_step" =
       Some (PInt (global_step w)) /\
     checkpoint_record epoch w !! "unet_garm_state_dict" =
       Some (PDict (state_dict (unet_garm w))) /\
     checkpoint_record epoch w !! "unet_vton_state_dict" =
       Some (PDict (state_dict (unet_vton w))) /\
     forall o, checkpoint_record epoch (set_optimizer_state o w) =
               checkpoint_record epoch w) /\
  (forall cfg env w' o,
     main cfg env = Ok (w', o) ->
     Forall (fun f => exists epoch w, f.2 = checkpoint_record epoch w)
            (files w')).
Proof.
  split.
  - intros epoch w. unfold checkpoint_record. split; [|split].
    + rewrite !dom_insert_L, dom_empty_L. set_solver.
    + rewrite !map_size_insert_None, map_size_empty; [done|..];
        by simplify_map_eq.
    + repeat split; by simplify_map_eq.
  - intros cfg env w' o. unfold main, and_then.
    destruct (setup cfg env) as [w0|] eqn:Hsetup; [|done].
    intros [= Hrun].
    pose proof (stable_training writes_records cfg env w0) as Hst.
    rewrite Hrun in Hst. destruct Hst as (new & Hfiles & Hnew).
    apply setup_inv in Hsetup
      as (? & ? & ? & ? & ? & ? & _ & _ & _ & _ & _ & _ & ->).
    simpl in Hfiles. by rewrite Hfiles.
Qed.
End CheckpointFiles.

Lemma checkpoint_named_by_epoch_or_step_witness :
  let c := Example.cfg 2 1 1 in
  let e := Example.env 0 2 in
  let w := Example.world0 c e in
  checkpoint_due (is_main_process e) (global_step w) 1 = Ok true /\
  let dir := path_join (run_output_dir c e) "checkpoints" in
  let w' := (save_checkpoint c e 1 0 1 w).1 in
  (1%Z = (Z.of_nat (dataloader_len e) - 1)%Z ->
     files w' = files w ++
       [(path_join dir ("checkpoint-epoch-" +:+ fmt_int (0 + 1)
                        +:+ ".ckpt"),
         checkpoint_record 0 w)]) /\
  (1%Z <> (Z.of_nat (dataloader_len e) - 1)%Z ->
     files w' = files w ++
       [(path_join dir ("checkpoint-global_step-" +:+
                        fmt_int (global_step w) +:+ ".ckpt"),
         checkpoint_record 0 w)]) /\
  (forall e g : Z,
     path_join dir ("checkpoint-epoch-" +:+ fmt_int (e + 1) +:+ ".ckpt") <>
     path_join dir ("checkpoint-global_step-" +:+ fmt_int g +:+ ".ckpt")).
Proof.
  intros c e w. split; [evaluate|].
  apply (checkpoint_named_by_epoch_or_step c e 1 0 1 w). evaluate.
Defined.

Lemma checkpoint_record_has_four_fields_witness :
  let c := Example.cfg 2 1 1 in
  let e := Example.env 0 2 in
  let r := train c e (Example.world0 c e) in
  main c e = Ok (r.1, r.2) /\
  Forall (fun f => exists epoch w, f.2 = checkpoint_record epoch w)
         (files r.1).
Proof.
  intros c e r. split; [evaluate|].
  apply (proj2 (@checkpoint_record_has_four_fields Example.ZF) c e r.1 r.2).
  evaluate.
Defined.

(** ** The loop on its successful path *)

Section Loop.
Context {F : Framework}.
Implicit Types (w : World F) (cfg : Config) (env : Env F).

Lemma batch_shaped_clip w w' (b : Batch F) :
  clip w' = clip w -> batch_shaped w b -> batch_shaped w' b.
Proof. unfold batch_shaped. by intros ->. Qed.

Lemma due_steps_one is_main cs gs :
  due_steps is_main cs gs 1 =
  if is_main && Z.eqb ((gs + 1) mod cs) 0 then [(gs + 1)%Z] else [].
Proof.
  unfold due_steps. destruct is_main; [|done].
  change (seqZ (gs + 1) 1) with [(gs + 1)%Z].
  rewrite filter_cons, filter_nil.
  destruct (decide _) as [->|Hne]; [done|].
  by apply Z.eqb_neq in Hne as ->.
Qed.

(** Lines 526-603 on a non-zero interval: the counter grows by one,
    [break] is requested exactly when it has reached the maximum, and a
    checkpoint is saved exactly on the main process at a multiple of the
    interval. *)
Lemma bookkeeping_run cfg env mts cs epoch step w :
  (is_main_process env = true -> cs <> 0%Z) ->
  exists w',
    bookkeeping cfg env mts cs epoch step w =
      (w', Ok (Z.leb mts (global_step w + 1))) /\
    global_step w' = (global_step w + 1)%Z /\
    clip w' = clip w /\
    saved_steps w' =
      saved_steps w ++ due_steps (is_main_process env) cs (global_step w) 1.
Proof.
  intros Hcs. rewrite due_steps_one.
  unfold bookkeeping, bind, gets, ret.
  destruct (is_main_process env && negb (is_debug cfg) && use_wandb cfg);
    unfold log, modify; cbv beta iota;
    rewrite save_checkpoint_run;
    cbn [global_step set_events set_global_step files clip];
    unfold checkpoint_due;
    (destruct (is_main_process env); cbn [andb];
     [ destruct (Z.eqb_spec cs 0) as [->|_]; [by destruct Hcs|];
       destruct (Z.eqb ((global_step w + 1) mod cs) 0); cbv beta iota zeta
     | ]);
    (eexists; split; [reflexivity|];
     cbn [global_step set_events set_global_step set_files files clip];
     repeat split; try done;
     unfold saved_steps;
     cbn [global_step set_events set_global_step set_files files clip];
     rewrite ?omap_app, ?app_nil_r; try done;
     cbn [omap list_omap]; by rewrite recorded_step_record).
Qed.

(** A well-shaped batch under an epsilon scheduler: the step succeeds,
    the counter grows by exactly one, [break] is requested exactly when
    the counter has reached the maximum, and a checkpoint is saved
    exactly on the main process at a multiple of the interval. *)
Lemma train_step_ok cfg env mts cs epoch step (b : Batch F) w :
  prediction_type cfg = "epsilon" ->
  batch_shaped w b ->
  (is_main_process env = true -> cs <> 0%Z) ->
  exists w',
    train_step cfg env mts cs epoch step b w =
      (w', Ok (Z.leb mts (global_step w + 1))) /\
    global_step w' = (global_step w + 1)%Z /\
    clip w' = clip w /\
    saved_steps w' =
      saved_steps w ++ due_steps (is_main_process env) cs (global_step w) 1.
Proof.
  intros Hpt Hshape Hcs. unfold train_step, bind.
  destruct (prepare_run cfg b w) as (n & ts & nl & r & ->).
  rewrite cfg_dropout_eq
    by (unfold Tensor.unsqueeze1; rewrite length_map; exact Hshape).
  unfold and_then, lift. cbv beta iota.
  cbn [p_noise]. rewrite Hpt, get_target_epsilon.
  match goal with
  | |- context [optimize cfg ?p ?t ?w1] =>
      destruct (optimize_run cfg p t w1) as (w2 & -> & _ & Hgs & Hf & Hc)
  end.
  cbn [global_step files clip set_rng set_events] in Hgs, Hf, Hc.
  destruct (bookkeeping_run cfg env mts cs epoch step w2 Hcs)
    as (w3 & -> & Hgs3 & Hc3 & Hs3).
  exists w3. rewrite Hgs in *. split; [done|]. split; [done|].
  split; [congruence|].
  rewrite Hs3. unfold saved_steps. by rewrite Hf.
Qed.

Lemma due_steps_app is_main cs gs (k1 k2 : nat) :
  due_steps is_main cs gs (Z.of_nat k1) ++
  due_steps is_main cs (gs + Z.of_nat k1) (Z.of_nat k2) =
  due_steps is_main cs gs (Z.of_nat (k1 + k2)).
Proof.
  unfold due_steps. destruct is_main; [|done].
  rewrite Nat2Z.inj_add, seqZ_app, filter_app by lia.
  do 3 f_equal. lia.
Qed.

(** One epoch. *)
Lemma run_batches_ok cfg env mts cs epoch (batches : list (Z * Batch F)) w :
  prediction_type cfg = "epsilon" ->
  (forall sb, sb ∈ batches -> batch_shaped w sb.2) ->
  (is_main_process env = true -> cs <> 0%Z) ->
  let k := epoch_batches mts (global_step w) (length batches) in
  exists w',
    run_batches cfg env mts cs epoch batches w = (w', Ok tt) /\
    global_step w' = (global_step w + Z.of_nat k)%Z /\
    clip w' = clip w /\
    saved_steps w' =
      saved_steps w ++
      due_steps (is_main_process env) cs (global_step w) (Z.of_nat k).
Proof.
  intros Hpt Hshape Hcs. revert w Hshape.
  induction batches as [|[step b] rest IH]; intros w Hshape; simpl.
  - exists w. unfold due_steps. rewrite Z.add_0_r.
    destruct (is_main_process env); by rewrite ?app_nil_r.
  - unfold bind.
    destruct (train_step_ok cfg env mts cs epoch step b w Hpt)
      as (w1 & -> & Hgs & Hc & Hs); [|done|].
    { apply (Hshape (step, b)). by left. }
    destruct (Z.leb mts (global_step w + 1)); simpl.
    + exists w1. by rewrite Hgs.
    + destruct (IH w1) as (w' & -> & Hgs' & Hc' & Hs').
      { intros sb Hsb. apply (batch_shaped_clip w); [done|].
        apply Hshape. by right. }
      exists w'. split; [done|]. rewrite Hgs in Hgs', Hs'.
      split; [lia|]. split; [congruence|].
      rewrite Hs', Hs, <-app_assoc. f_equal.
      rewrite <-(due_steps_app _ _ _ 1). done.
Qed.

Lemma length_enumerate_batches env epoch :
  length (enumerate_batches env epoch) = dataloader_len env.
Proof. unfold enumerate_batches. by rewrite length_fmap, length_seq. Qed.

(** All epochs. *)
Lemma run_epochs_ok cfg env mts cs (epochs : list Z) w :
  prediction_type cfg = "epsilon" ->
  (forall epoch i, batch_shaped w (batch_at env epoch i)) ->
  (is_main_process env = true -> cs <> 0%Z) ->
  let gs' := final_step mts (dataloader_len env) (global_step w)
                        (length epochs) in
  exists w',
    run_epochs cfg env mts cs epochs w = (w', Ok tt) /\
    global_step w' = gs' /\
    (global_step w <= gs')%Z /\
    clip w' = clip w /\
    saved_steps w' =
      saved_steps w ++
      due_steps (is_main_process env) cs (global_step w)
                (gs' - global_step w).
Proof.
  intros Hpt Hshape Hcs. revert w Hshape.
  induction epochs as [|epoch rest IH]; intros w Hshape; simpl.
  - exists w. rewrite Z.sub_diag. unfold due_steps.
    destruct (is_main_process env); by rewrite ?app_nil_r.
  - unfold bind.
    destruct (run_batches_ok cfg env mts cs epoch
                (enumerate_batches env epoch) w Hpt)
      as (w1 & -> & Hgs & Hc & Hs); [|done|].
    { intros [step b] [i [[= -> ->] _]]%list_elem_of_fmap. apply Hshape. }
    rewrite length_enumerate_batches in Hgs, Hs. simpl.
    destruct (IH w1) as (w' & -> & Hgs' & Hle & Hc' & Hs').
    { intros e i. by apply (batch_shaped_clip w). }
    rewrite Hgs in Hgs', Hle, Hs'.
    exists w'. split; [done|]. split; [done|]. split; [lia|].
    split; [congruence|].
    rewrite Hs', Hs, <-app_assoc. f_equal.
    set (k := epoch_batches mts (global_step w) (dataloader_len env)) in *.
    set (gs' := final_step mts (dataloader_len env)
                  (global_step w + Z.of_nat k) (length rest)) in *.
    replace (gs' - (global_step w + Z.of_nat k))%Z
      with (Z.of_nat (Z.to_nat (gs' - (global_step w + Z.of_nat k))))
      by lia.
    rewrite due_steps_app. f_equal. lia.
Qed.
End Loop.

(** ** How far the counter runs *)

Section Counter.
Context {F : Framework}.
Implicit Types (w : World F) (cfg : Config) (env : Env F).

Lemma epoch_batches_below mts gs len :
  (gs < mts)%Z ->
  Z.of_nat (epoch_batches mts gs len) = Z.min (Z.of_nat len) (mts - gs).
Proof.
  revert gs. induction len as [|len IH]; intros gs Hlt; simpl; [lia|].
  destruct (Z.leb_spec mts (gs + 1)); [lia|].
  rewrite Nat2Z.inj_succ, IH by lia. lia.
Qed.

(** Once the maximum is reached, every further epoch still processes one
    batch. *)
Lemma epoch_batches_beyond mts gs len :
  (mts <= gs)%Z -> epoch_batches mts gs (S len) = 1.
Proof. intros Hle. simpl. destruct (Z.leb_spec mts (gs + 1)); [done|lia]. Qed.

Lemma final_step_exact mts (len : nat) (n : nat) gs :
  (0 < len)%nat ->
  (n = 0%nat /\ gs = mts) \/
  ((0 < n)%nat /\
   ((Z.of_nat n - 1) * Z.of_nat len < mts - gs <= Z.of_nat n * Z.of_nat len)%Z) ->
  final_step mts len gs n = mts.
Proof.
  intros Hlen. revert gs.
  induction n as [|n IH]; intros gs [[Hn ->]|[Hn Hb]]; simpl;
    try done; try lia.
  assert (Hlt : (gs < mts)%Z) by nia.
  rewrite epoch_batches_below by exact Hlt.
  apply IH. destruct n as [|n]; [left|right].
  - split; [done|]. lia.
  - split; [lia|]. rewrite !Nat2Z.inj_succ in *. nia.
Qed.

Lemma ceil_div_bounds (m l : Z) :
  (0 < l)%Z -> (0 <= m)%Z ->
  exists e, ceil_div m l = Ok e /\ (0 <= e)%Z /\
            ((e = 0 /\ m = 0)%Z \/
             (0 < e /\ (e - 1) * l < m <= e * l)%Z).
Proof.
  intros Hl Hm. unfold ceil_div.
  destruct (Z.eqb_spec l 0); [lia|]. eexists. split; [reflexivity|].
  pose proof (Z.div_mod (- m) l ltac:(lia)) as Hdm.
  pose proof (Z.mod_pos_bound (- m) l Hl) as Hr.
  set (q := (- m / l)%Z) in *. nia.
Qed.

Lemma ceil_div_one (l : Z) : ceil_div l 1 = Ok l.
Proof. unfold ceil_div. simpl. rewrite Z.div_1_r. f_equal. lia. Qed.

(** Without gradient accumulation the loop runs to [max_train_steps]
    and stops there; on the way the main process saves at every multiple
    of the interval. *)
Lemma train_without_accumulation cfg env w :
  prediction_type cfg = "epsilon" ->
  (forall epoch i, batch_shaped w (batch_at env epoch i)) ->
  gradient_accumulation_steps cfg = 1%Z ->
  (0 < dataloader_len env)%nat ->
  (0 <= max_train_steps cfg)%Z ->
  checkpointing_steps cfg <> (-1)%Z ->
  (is_main_process env = true -> checkpointing_steps cfg <> 0%Z) ->
  exists w',
    train cfg env w = (w', Ok tt) /\
    global_step w' = max_train_steps cfg /\
    saved_steps w' =
      saved_steps w ++
      due_steps (is_main_process env) (checkpointing_steps cfg) 0
                (max_train_steps cfg).
Proof.
  intros Hpt Hshape Hacc Hlen Hmax Hcs Hcs0. unfold train.
  rewrite (resolve_steps_given (max_train_steps cfg)) by lia.
  rewrite (resolve_steps_given (checkpointing_steps cfg)) by done.
  rewrite Hacc, ceil_div_one.
  destruct (ceil_div_bounds (max_train_steps cfg)
              (Z.of_nat (dataloader_len env))) as (e & He & He0 & Hb);
    [lia..|].
  unfold bind, lift, modify. simpl. rewrite He. simpl.
  destruct (run_epochs_ok cfg env (max_train_steps cfg)
              (checkpointing_steps cfg) (py_range e)
              (set_global_step 0 w) Hpt)
    as (w' & -> & Hgs & _ & _ & Hs); [done..|].
  simpl in Hgs, Hs.
  assert (Hfinal : final_step (max_train_steps cfg) (dataloader_len env) 0
                     (length (py_range e)) = max_train_steps cfg).
  { apply final_step_exact; [done|].
    unfold py_range. rewrite length_seqZ.
    destruct Hb as [[-> Hm]|[He1 Hb]]; [left|right].
    - split; [done|lia].
    - split; [lia|]. rewrite Z2Nat.id by lia. lia. }
  rewrite Hfinal in Hgs, Hs. rewrite Z.sub_0_r in Hs.
  exists w'. done.
Qed.
End Counter.

(** ** When checkpoints are written *)

Section Cadence.
Context {F : Framework}.
Implicit Types (w : World F) (cfg : Config) (env : Env F).

Lemma snoc_neq {A} (l : list A) (x : A) : l ++ [x] <> l.
Proof.
  intros H. apply (f_equal length) in H.
  rewrite length_app in H. simpl in H. lia.
Qed.

(** With a non-zero interval, the checkpoint code after a batch never
    raises and writes a file exactly when the process is the main process
    and the counter is a multiple of the interval. *)
Lemma save_checkpoint_at_multiples cfg env (cs epoch step : Z) w :
  cs <> 0%Z ->
  let r := save_checkpoint cfg env cs epoch step w in
  r.2 = Ok tt /\
  (files r.1 <> files w <->
   is_main_process env = true /\ (global_step w mod cs = 0)%Z) /\
  (is_main_process env = true -> (global_step w mod cs = 0)%Z ->
   exists path,
     files r.1 = files w ++ [(path, checkpoint_record epoch w)]) /\
  (is_main_process env = false -> files r.1 = files w).
Proof.
  intros Hcs r. subst r.
  rewrite save_checkpoint_run. unfold checkpoint_due.
  destruct (is_main_process env).
  - destruct (Z.eqb_spec cs 0) as [|_]; [done|].
    destruct (Z.eqb_spec (global_step w mod cs) 0) as [Hm|Hm]; simpl.
    + repeat split; try done; eauto using snoc_neq.
    + repeat split; try done. by intros [_ ?].
  - simpl. repeat split; try done. by intros [? _].
Qed.

(** Without gradient accumulation, with interval 100 and maximum 250,
    the main process saves exactly at counters 100 and 200. *)
Lemma checkpoints_without_accumulation cfg env w0 :
  setup cfg env = Ok w0 ->
  is_main_process env = true ->
  prediction_type cfg = "epsilon" ->
  (forall epoch i, batch_shaped w0 (batch_at env epoch i)) ->
  gradient_accumulation_steps cfg = 1%Z ->
  (0 < dataloader_len env)%nat ->
  max_train_steps cfg = 250%Z ->
  checkpointing_steps cfg = 100%Z ->
  exists w',
    main cfg env = Ok (w', Ok tt) /\
    global_step w' = 250%Z /\
    saved_steps w' = [100; 200]%Z.
Proof.
  intros Hsetup Hmain Hpt Hshape Hacc Hlen Hmax Hcs.
  destruct (train_without_accumulation cfg env w0 Hpt Hshape Hacc Hlen)
    as (w' & Hrun & Hgs & Hs);
    [rewrite Hmax; lia|rewrite Hcs; lia|intros _; rewrite Hcs; lia|].
  exists w'. unfold main, and_then. rewrite Hsetup, Hrun.
  split; [done|]. split; [congruence|].
  rewrite Hs, Hmain, Hcs, Hmax.
  apply setup_inv in Hsetup
    as (? & ? & ? & ? & ? & ? & _ & _ & _ & _ & _ & _ & ->).
  evaluate.
Qed.

(** C3, where the code goes wrong. On the main process, with interval 100
    and [max_train_steps = 250], ten batches per epoch and gradient
    accumulation 4, the number of epochs is computed as
    ceil(250 / ceil(10 / 4)) = 84.  The first 25 epochs bring the counter
    to 250; each of the remaining 59 still processes one batch before its
    [break], so the run ends normally with the counter at 309, and it has
    written a checkpoint at counter 300 besides those at 100 and 200. *)
Theorem checkpoint_written_beyond_max_steps cfg env w0 :
  setup cfg env = Ok w0 ->
  is_main_process env = true ->
  prediction_type cfg = "epsilon" ->
  (forall epoch i, batch_shaped w0 (batch_at env epoch i)) ->
  dataloader_len env = 10%nat ->
  gradient_accumulation_steps cfg = 4%Z ->
  max_train_steps cfg = 250%Z ->
  checkpointing_steps cfg = 100%Z ->
  exists w',
    main cfg env = Ok (w', Ok tt) /\
    global_step w' = 309%Z /\
    saved_steps w' = [100; 200; 300]%Z /\
    saved_steps w' <> [100; 200]%Z.
Proof.
  intros Hsetup Hmain Hpt Hshape Hlen Hacc Hmax Hcs.
  destruct (run_epochs_ok cfg env 250 100 (py_range 84)
              (set_global_step 0 w0) Hpt)
    as (w' & Hrun & Hgs & _ & _ & Hs); [done|done|].
  rewrite Hlen in Hgs, Hs. rewrite Hmain in Hs.
  apply setup_inv in Hsetup as Hinv.
  destruct Hinv as (? & ? & ? & ? & ? & ? & _ & _ & _ & _ & _ & _ & Hfiles).
  assert (Hmainrun : main cfg env = Ok (w', Ok tt)).
  { unfold main, and_then. rewrite Hsetup. f_equal.
    unfold train. rewrite Hmax, Hcs, Hacc, Hlen.
    rewrite (resolve_steps_given 250) by discriminate.
    rewrite (resolve_steps_given 100) by discriminate.
    change (ceil_div (Z.of_nat 10) 4) with (@Ok Z 3%Z).
    unfold bind, lift, modify. cbv beta iota.
    change (ceil_div 250 3) with (@Ok Z 84%Z). cbv beta iota.
    exact Hrun. }
  assert (Hsaved : saved_steps w' = [100; 200; 300]%Z).
  { rewrite Hs. unfold saved_steps at 1.
    cbn [files set_global_step global_step]. rewrite Hfiles. evaluate. }
  exists w'. split; [exact Hmainrun|]. split; [rewrite Hgs; evaluate|].
  split; [exact Hsaved|]. by rewrite Hsaved.
Qed.

(** C1, where the code goes wrong. With two batches per epoch, gradient
    accumulation 2 and [max_train_steps = 2], the number of epochs is
    computed as 2; the first epoch brings the counter to 2 and [break]s,
    the second still processes a batch: the run ends normally with the
    counter at 3. *)
Theorem global_step_overshoots_with_accumulation cfg env w :
  prediction_type cfg = "epsilon" ->
  (forall epoch i, batch_shaped w (batch_at env epoch i)) ->
  dataloader_len env = 2%nat ->
  gradient_accumulation_steps cfg = 2%Z ->
  max_train_steps cfg = 2%Z ->
  checkpointing_steps cfg <> (-1)%Z ->
  (is_main_process env = true -> checkpointing_steps cfg <> 0%Z) ->
  exists w',
    train cfg env w = (w', Ok tt) /\
    global_step w' = 3%Z /\
    (max_train_steps cfg < global_step w')%Z.
Proof.
  intros Hpt Hshape Hlen Hacc Hmax Hcs Hcs0.
  destruct (run_epochs_ok cfg env 2 (checkpointing_steps cfg)
              (py_range 2) (set_global_step 0 w) Hpt)
    as (w' & Hrun & Hgs & _); [done..|].
  rewrite Hlen in Hgs. exists w'. split.
  - unfold train. rewrite Hmax, Hacc, Hlen.
    rewrite (resolve_steps_given 2) by discriminate.
    rewrite (resolve_steps_given (checkpointing_steps cfg)) by done.
    change (ceil_div (Z.of_nat 2) 2) with (@Ok Z 1%Z).
    unfold bind, lift, modify. cbv beta iota.
    change (ceil_div 2 1) with (@Ok Z 2%Z). cbv beta iota.
    exact Hrun.
  - rewrite Hgs, Hmax. split; evaluate.
Qed.
End Cadence.

Lemma checkpoint_written_beyond_max_steps_witness :
  let c := Example.cfg 250 4 100 in
  let e := Example.env 0 10 in
  let w0 := Example.world0 c e in
  setup c e = Ok w0 /\
  exists w',
    main c e = Ok (w', Ok tt) /\
    global_step w' = 309%Z /\
    saved_steps w' = [100; 200; 300]%Z /\
    saved_steps w' <> [100; 200]%Z.
Proof.
  intros c e w0. split; [evaluate|].
  apply (checkpoint_written_beyond_max_steps c e w0).
  - evaluate.
  - evaluate.
  - evaluate.
  - intros epoch i. evaluate.
  - evaluate.
  - evaluate.
  - evaluate.
  - evaluate.
Defined.

Lemma global_step_overshoots_with_accumulation_witness :
  let c := Example.cfg 2 2 1 in
  let e := Example.env 0 2 in
  let w := Example.world0 c e in
  exists w',
    train c e w = (w', Ok tt) /\
    global_step w' = 3%Z /\
    (max_train_steps c < global_step w')%Z.
Proof.
  intros c e w.
  apply (global_step_overshoots_with_accumulation c e w).
  - evaluate.
  - intros epoch i. evaluate.
  - evaluate.
  - evaluate.
  - evaluate.
  - discriminate.
  - intros _. discriminate.
Defined.

(** * Further properties *)

(** ** Distributed initialisation *)

Section InitDistFacts.
Context (py_int : string -> option Z) (device_count : nat)
        (scontrol_first_host : string -> string).
#[local] Abbreviation init_dist :=
  (Dist.init_dist py_int device_count scontrol_first_host).

Lemma local_rank_of_inv rank r :
  Dist.local_rank_of device_count rank = inr r ->
  r = (rank mod Z.of_nat device_count)%Z /\
  (0 <= r < Z.of_nat device_count)%Z.
Proof.
  unfold Dist.local_rank_of.
  destruct (Nat.eqb_spec device_count 0); [done|].
  intros [= <-]. split; [done|]. apply Z.mod_pos_bound. lia.
Qed.

Lemma getenv_int_inv h key n :
  Dist.getenv_int py_int h key = inr n ->
  exists v, Dist.environ h !! key = Some v /\ py_int v = Some n.
Proof.
  unfold Dist.getenv_int, Dist.getenv.
  destruct (Dist.environ h !! key) as [v|]; [|done].
  destruct (py_int v) as [m|] eqn:E; [|done].
  intros [= <-]. eauto.
Qed.




End InitDistFacts.





(** ** Parameters without gradients *)

Section NoGradFacts.
Context {T : Type}.
Implicit Types ps : @named_grads T.

Lemma no_grad_loop ps (printed acc : list string) :
  foldl (fun '(printed, no_grad_params) '(name, grad) =>
           (printed ++ [name],
            match grad : option T with
            | None => no_grad_params ++ [name]
            | Some _ => no_grad_params
            end))
        (printed, acc) ps =
  (printed ++ ps.*1, acc ++ omap name_if_no_grad ps).
Proof.
  revert printed acc.
  induction ps as [|[name [g|]] ps IH]; intros printed acc; simpl.
  - by rewrite !app_nil_r.
  - rewrite IH. by rewrite <-app_assoc.
  - rewrite IH. unfold name_if_no_grad at 2. simpl.
    by rewrite <-!app_assoc.
Qed.

End NoGradFacts.

(** ** What a step can do to the world *)

Section StepCases.
Context {F : Framework}.
Implicit Types (w : World F) (cfg : Config) (env : Env F).

Lemma bookkeeping_world cfg env mts cs epoch step w :
  (bookkeeping cfg env mts cs epoch step w).1 =
  after_bookkeeping cfg env cs epoch step w.
Proof.
  unfold bookkeeping, after_bookkeeping, wandb_gate, checkpoint_dir,
    bind, gets, ret.
  destruct (is_main_process env && negb (is_debug cfg) && use_wandb cfg);
    unfold log, modify; cbv beta iota zeta;
    rewrite save_checkpoint_run;
    cbn [global_step set_events set_global_step];
    destruct (checkpoint_due _ _ _) as [[|]|]; reflexivity.
Qed.

(** A step ends where preparing the batch left the world, or where the
    bookkeeping leaves it after a full optimisation. *)
Lemma train_step_world cfg env mts cs epoch step (b : Batch F) w :
  exists n r,
    let w1 := set_rng r (set_events (events w ++ [EvNoise n]) w) in
    (train_step cfg env mts cs epoch step b w).1 = w1 \/
    exists w2 nl ts ehs pred tgt,
      events w2 = events w1 ++
                  [EvForward nl ts ehs; EvLoss pred tgt; EvOptimizerStep] /\
      global_step w2 = global_step w /\ files w2 = files w /\
      (train_step cfg env mts cs epoch step b w).1 =
      after_bookkeeping cfg env cs epoch step w2.
Proof.
  destruct (prepare_run cfg b w) as (n & ts & nl & r & Hprep).
  exists n, r. unfold train_step, bind. rewrite Hprep.
  unfold and_then. destruct (cfg_dropout _ _ _) as [ehs|e]; [|by left].
  unfold lift. cbv beta iota.
  destruct (get_target _ _) as [tgt|e]; [|by left].
  match goal with
  | |- context [optimize cfg ?p ?t ?w1] =>
      destruct (optimize_run cfg p t w1) as (w2 & -> & Hev & Hgs & Hf & _)
  end.
  right. cbn [p_noisy_latents p_timesteps p_encoder_hidden_states] in Hev.
  do 6 eexists. split; [exact Hev|].
  split; [exact Hgs|]. split; [exact Hf|].
  cbv beta iota. apply bookkeeping_world.
Qed.

Lemma stable_train_step_cases (R : World F -> World F -> Prop)
    `{!PreOrder R} cfg env mts cs epoch step :
  (forall w n r, R w (set_rng r (set_events (events w ++ [EvNoise n]) w))) ->
  (forall w w2 nl ts ehs pred tgt,
     events w2 = events w ++
                 [EvForward nl ts ehs; EvLoss pred tgt; EvOptimizerStep] ->
     global_step w2 = global_step w -> files w2 = files w ->
     R w (after_bookkeeping cfg env cs epoch step w2)) ->
  forall b, stable R (train_step cfg env mts cs epoch step b).
Proof.
  intros Hprep Hrest b w.
  destruct (train_step_world cfg env mts cs epoch step b w)
    as (n & r & [->|(w2 & nl & ts & ehs & pred & tgt & Hev & Hgs & Hf & ->)]).
  - apply Hprep.
  - etransitivity; [apply (Hprep w n r)|].
    eapply Hrest; [exact Hev|exact Hgs|exact Hf].
Qed.

(** A run of [train] leaves the world alone or is a run of the two loops
    from counter 0. *)
Lemma train_world cfg env w :
  train cfg env w = (w, (train cfg env w).2) \/
  exists mts cs epochs,
    train cfg env w =
    run_epochs cfg env mts cs epochs (set_global_step 0 w).
Proof.
  unfold train, bind, lift, modify.
  destruct (resolve_steps (max_train_steps cfg) _ _); [|by left].
  destruct (resolve_steps (checkpointing_steps cfg) _ _); [|by left].
  destruct (ceil_div _ (gradient_accumulation_steps cfg)); [|by left].
  destruct (ceil_div _ _); [|by left].
  right. eauto.
Qed.

Lemma stable_loops (R : World F -> World F -> Prop)
    `{!PreOrder R} cfg env :
  (forall mts cs epoch step b,
     stable R (train_step cfg env mts cs epoch step b)) ->
  forall mts cs epochs, stable R (run_epochs cfg env mts cs epochs).
Proof. intros H mts cs epochs. by apply stable_run_epochs. Qed.

Lemma count_events_app (p : event F -> bool) w w' l :
  events w' = events w ++ l ->
  count_events p w' =
  (count_events p w + length (filter (fun e => p e = true) l))%nat.
Proof.
  intros H. unfold count_events. by rewrite H, filter_app, length_app.
Qed.

Lemma filter_bool_cons {A} (p : A -> bool) (x : A) (l : list A) :
  filter (fun e => p e = true) (x :: l) =
  if p x then x :: filter (fun e => p e = true) l
  else filter (fun e => p e = true) l.
Proof.
  rewrite filter_cons. destruct (p x); by destruct (decide _).
Qed.

Lemma saved_paths_app w w' l :
  events w' = events w ++ l ->
  saved_paths w' =
  saved_paths w ++
  omap (fun e => match e with EvSave p => Some p | _ => None end) l.
Proof. intros H. unfold saved_paths. by rewrite H, omap_app. Qed.
End StepCases.

(** ** Invariants of whole runs *)

Section RunInvariants.
Context {F : Framework}.
Implicit Types (w : World F) (cfg : Config) (env : Env F).

#[local] Instance keeps_frozen_preorder : PreOrder (@keeps_frozen F).
Proof.
  split; [by intros w|].
  intros w1 w2 w3 (? & ? & ?) (? & ? & ?). unfold keeps_frozen.
  repeat split; congruence.
Qed.

#[local] Instance keeps_frozen_respects : Respects (@keeps_frozen F).
Proof.
  split; try exact _; try (intros; by repeat split).
  intros w upd.
  by destruct (apply_updates_shape upd (optimizer_params w) w)
    as (g & v & ->).
Qed.


#[local] Instance keeps_files_preorder : PreOrder (@keeps_files F).
Proof.
  split; [by intros w|].
  intros w1 w2 w3 [? ?] [? ?]. split; congruence.
Qed.

Lemma not_main_never_due env gs cs :
  is_main_process env = false ->
  checkpoint_due (is_main_process env) gs cs = Ok false.
Proof. by intros ->. Qed.

Lemma not_main_no_wandb cfg env :
  is_main_process env = false -> wandb_gate cfg env = false.
Proof. unfold wandb_gate. by intros ->. Qed.

Lemma keeps_files_step cfg env mts cs epoch step b :
  is_main_process env = false ->
  stable keeps_files (train_step cfg env mts cs epoch step b).
Proof.
  intros Hmain. apply stable_train_step_cases; [exact _| |].
  - intros w n r. split; [done|].
    by rewrite (saved_paths_app w _ [EvNoise n]), app_nil_r.
  - intros w w2 nl ts ehs pred tgt Hev Hgs Hf.
    unfold after_bookkeeping.
    rewrite (not_main_no_wandb _ _ Hmain), (not_main_never_due _ _ _ Hmain).
    cbv beta iota zeta. unfold keeps_files, saved_paths.
    cbn [files events set_global_step]. rewrite Hev, Hf, !omap_app.
    cbn [omap list_omap]. by rewrite !app_nil_r.
Qed.


#[local] Instance keeps_wandb_preorder : PreOrder (@keeps_wandb F).
Proof.
  split; [by intros w|].
  intros w1 w2 w3 ? ?. unfold keeps_wandb in *. congruence.
Qed.

(** Counting the events a step appended. *)
Ltac count_appended Hev :=
  unfold count_events;
  cbn [events set_events set_files set_global_step set_rng];
  rewrite ?Hev, ?filter_app, ?length_app, ?filter_bool_cons, ?filter_nil;
  cbn [is_wandb_log is_optimizer_step is_forward is_save length];
  try lia.

Lemma keeps_wandb_step cfg env mts cs epoch step b :
  wandb_gate cfg env = false ->
  stable keeps_wandb (train_step cfg env mts cs epoch step b).
Proof.
  intros Hgate. apply stable_train_step_cases; [exact _| |].
  - intros w n r. unfold keeps_wandb. count_appended I.
  - intros w w2 nl ts ehs pred tgt Hev Hgs Hf.
    unfold after_bookkeeping, keeps_wandb. rewrite Hgate.
    cbv beta iota zeta.
    destruct (checkpoint_due _ _ _) as [[|]|]; count_appended Hev.
Qed.

End RunInvariants.

Section RunCounters.
Context {F : Framework}.
Implicit Types (w : World F) (cfg : Config) (env : Env F).

Ltac count_appended Hev :=
  unfold count_events;
  cbn [events set_events set_files set_global_step set_rng global_step];
  rewrite ?Hev, ?filter_app, ?length_app, ?filter_bool_cons, ?filter_nil;
  cbn [is_wandb_log is_optimizer_step is_forward is_save length];
  try lia.

#[local] Instance counts_steps_preorder : PreOrder (@counts_steps F).
Proof.
  split; [by intros w|].
  intros w1 w2 w3 [? ?] [? ?]. unfold counts_steps in *. lia.
Qed.

Lemma counts_steps_step cfg env mts cs epoch step b :
  stable counts_steps (train_step cfg env mts cs epoch step b).
Proof.
  apply stable_train_step_cases; [exact _| |].
  - intros w n r. split; count_appended I.
  - intros w w2 nl ts ehs pred tgt Hev Hgs Hf.
    unfold after_bookkeeping, counts_steps.
    destruct (wandb_gate cfg env);
      destruct (checkpoint_due _ _ _) as [[|]|];
      cbv beta iota zeta; split; count_appended Hev.
Qed.

(** The world [main] hands to the loops. *)
Lemma main_inv cfg env w' o :
  main cfg env = Ok (w', o) ->
  exists w0, setup cfg env = Ok w0 /\ train cfg env w0 = (w', o) /\
             global_step w0 = 0%Z /\ events w0 = [] /\ files w0 = [] /\
             set_global_step 0 w0 = w0.
Proof.
  unfold main, and_then.
  destruct (setup cfg env) as [w0|] eqn:Hsetup; [|done].
  intros [= Hrun]. exists w0. split; [done|]. split; [done|].
  apply setup_inv in Hsetup
    as (? & ? & ? & ? & ? & ? & _ & _ & _ & _ & _ & _ & ->).
  done.
Qed.

(** From [main], a relation kept by every step holds between the world
    after [setup] and the final world. *)
Lemma main_stable (R : World F -> World F -> Prop) `{!PreOrder R}
    cfg env w' o :
  (forall mts cs epoch step b,
     stable R (train_step cfg env mts cs epoch step b)) ->
  main cfg env = Ok (w', o) ->
  exists w0, setup cfg env = Ok w0 /\ R w0 w' /\
             global_step w0 = 0%Z /\ events w0 = [] /\ files w0 = [].
Proof.
  intros Hstep (w0 & Hsetup & Hrun & Hgs & Hev & Hf & Heta)%main_inv.
  exists w0. repeat split; try done.
  destruct (train_world cfg env w0) as [H|(mts & cs & epochs & H)].
  - rewrite Hrun in H. injection H as ->. reflexivity.
  - rewrite Heta, Hrun in H.
    pose proof (stable_loops R cfg env Hstep mts cs epochs w0) as Hst.
    by rewrite <-H in Hst.
Qed.

Lemma main_counts_steps cfg env w' o :
  main cfg env = Ok (w', o) ->
  global_step w' = Z.of_nat (count_events is_optimizer_step w') /\
  global_step w' = Z.of_nat (count_events is_forward w').
Proof.
  intros (w0 & _ & [H1 H2] & Hgs & Hev & _)
         %(main_stable counts_steps);
    [|intros; apply counts_steps_step].
  unfold count_events in *. rewrite Hev, Hgs in *. simpl in *. lia.
Qed.


#[local] Instance keeps_order_preorder : PreOrder (@keeps_order F).
Proof.
  split; [intros w H; exact H|]. intros w1 w2 w3 H1 H2 H. auto.
Qed.

Lemma StronglySorted_snoc (l : list Z) (x : Z) :
  StronglySorted Z.lt l -> Forall (fun y => (y < x)%Z) l ->
  StronglySorted Z.lt (l ++ [x]).
Proof.
  induction 1 as [|y l Hs IH Hy]; intros Hall; simpl.
  - repeat constructor.
  - apply Forall_cons in Hall as [Hyx Hall]. constructor; [by apply IH|].
    apply Forall_app. split; [done|]. by apply Forall_singleton.
Qed.

Lemma keeps_order_step cfg env mts cs epoch step b :
  stable keeps_order (train_step cfg env mts cs epoch step b).
Proof.
  apply stable_train_step_cases; [exact _| |].
  - intros w n r H. exact H.
  - intros w w2 nl ts ehs pred tgt Hev Hgs Hf (H0 & Hsort & Hall).
    assert (Hgrow : Forall (fun s => (1 <= s <= global_step w + 1)%Z)
                           (saved_steps w)).
    { eapply Forall_impl; [exact Hall|]. simpl. lia. }
    unfold after_bookkeeping, steps_in_order, saved_steps.
    destruct (wandb_gate cfg env);
      destruct (checkpoint_due _ _ _) as [[|]|];
      cbv beta iota zeta;
      cbn [global_step files set_events set_files set_global_step];
      rewrite ?Hgs, ?Hf, ?omap_app; cbn [omap list_omap];
      rewrite ?recorded_step_record;
      cbn [global_step set_events set_global_step option_bind mbind];
      rewrite ?Hgs;
      (split; [lia|]); try (split; [exact Hsort|exact Hgrow]).
    all: split;
      [ apply StronglySorted_snoc; [exact Hsort|];
        eapply Forall_impl; [exact Hall|]; simpl; lia
      | apply Forall_app; split; [exact Hgrow|];
        apply Forall_singleton; lia ].
Qed.

End RunCounters.

Section RunFiles.
Context {F : Framework}.
Implicit Types (w : World F) (cfg : Config) (env : Env F).

#[local] Instance writes_into_dir_preorder cfg env :
  PreOrder (@writes_into_dir F cfg env).
Proof.
  split.
  - intros w. exists []. by rewrite !app_nil_r.
  - intros w1 w2 w3 (n1 & Hf1 & Hp1 & H1) (n2 & Hf2 & Hp2 & H2).
    exists (n1 ++ n2). rewrite Hf2, Hf1, Hp2, Hp1, fmap_app, !app_assoc.
    repeat split. by apply Forall_app.
Qed.

Lemma writes_into_dir_step cfg env mts cs epoch step b :
  stable (writes_into_dir cfg env) (train_step cfg env mts cs epoch step b).
Proof.
  apply stable_train_step_cases; [exact _| |].
  - intros w n r. exists [].
    rewrite (saved_paths_app w _ [EvNoise n]) by done.
    by rewrite !app_nil_r.
  - intros w w2 nl ts ehs pred tgt Hev Hgs Hf.
    unfold after_bookkeeping, writes_into_dir, saved_paths.
    destruct (wandb_gate cfg env);
      destruct (checkpoint_due _ _ _) as [[|]|];
      cbv beta iota zeta;
      cbn [global_step files events set_events set_files set_global_step];
      rewrite ?Hev, ?Hf, ?omap_app; cbn [omap list_omap];
      rewrite ?app_nil_r.
    all: try (exists []; by rewrite !app_nil_r).
    all: eexists [(_, _)]; split; [reflexivity|]; split; [reflexivity|];
      apply Forall_singleton; cbn [fst];
      destruct (Z.eqb step _); eexists; eauto.
Qed.


#[local] Instance keeps_weights_preorder : PreOrder (@keeps_weights F).
Proof.
  split; [by intros w|].
  intros w1 w2 w3 (?&?&?&?&?&?) (?&?&?&?&?&?). unfold keeps_weights.
  repeat split; congruence.
Qed.

Lemma train_step_unsupported cfg env mts cs epoch step (b : Batch F) w :
  prediction_type cfg <> "epsilon" ->
  exists n r,
    (train_step cfg env mts cs epoch step b w).1 =
    set_rng r (set_events (events w ++ [EvNoise n]) w).
Proof.
  intros Hpt.
  destruct (prepare_run cfg b w) as (n & ts & nl & r & Hprep).
  exists n, r. unfold train_step, bind. rewrite Hprep.
  unfold and_then. destruct (cfg_dropout _ _ _) as [ehs|e]; [|done].
  unfold lift. cbv beta iota. by rewrite get_target_other.
Qed.

End RunFiles.

(** ** Edge cases of the loop set-up *)

Section Edges.
Context {F : Framework}.
Implicit Types (w : World F) (cfg : Config) (env : Env F).

Lemma resolve_steps_ok steps epochs len :
  (steps = (-1)%Z -> epochs <> (-1)%Z) ->
  exists m, resolve_steps steps epochs len = Ok m.
Proof.
  intros H. unfold resolve_steps.
  destruct (Z.eqb_spec steps (-1)) as [Hs|]; [|eauto].
  destruct (Z.eqb_spec epochs (-1)); [by destruct (H Hs)|].
  simpl. eauto.
Qed.


Lemma py_range_nonpos n : (n <= 0)%Z -> py_range n = [].
Proof.
  intros H. unfold py_range, seqZ. by rewrite Z2Nat.nonpos.
Qed.


Lemma bookkeeping_zero_interval cfg env mts epoch step w :
  is_main_process env = true ->
  bookkeeping cfg env mts 0 epoch step w =
  (after_bookkeeping cfg env 0 epoch step w, Raise ZeroDivisionError).
Proof.
  intros Hmain.
  unfold bookkeeping, after_bookkeeping, wandb_gate, bind, gets, ret.
  destruct (is_main_process env && negb (is_debug cfg) && use_wandb cfg);
    unfold log, modify; cbv beta iota zeta;
    rewrite save_checkpoint_run;
    cbn [global_step set_events set_global_step];
    unfold checkpoint_due; rewrite Hmain; reflexivity.
Qed.


End Edges.

(** ** Runs without accumulation, and the script's own checkpoints *)

Section Resume.
Context {F : Framework}.
Implicit Types (w : World F) (cfg : Config) (env : Env F).


Lemma record_has_no_state_dict epoch w :
  checkpoint_record epoch w !! "state_dict" = None.
Proof.
  unfold checkpoint_record. by rewrite !lookup_insert_ne, lookup_empty.
Qed.

End Resume.

(** ** An interval given in epochs *)

Section EpochInterval.
Context {F : Framework}.
Implicit Types (w : World F) (cfg : Config) (env : Env F).

(** A counter inside epoch [e] is a multiple of [every] epochs' worth of
    batches only at the last batch of an epoch whose number is a
    multiple of [every]. *)
Lemma due_only_at_epoch_end (len every e i : Z) :
  (0 < len)%Z -> (0 < every)%Z -> (0 <= e)%Z -> (0 <= i < len)%Z ->
  ((e * len + i + 1) mod (every * len) = 0)%Z ->
  i = (len - 1)%Z /\ exists k, (1 <= k)%Z /\ (e + 1 = k * every)%Z.
Proof.
  intros Hlen Hevery He Hi Hmod.
  apply Z.mod_divide in Hmod; [|nia]. destruct Hmod as [q Hq].
  assert (Hq1 : (1 <= q)%Z) by nia.
  assert (Ht : (i + 1 = (q * every - e) * len)%Z) by lia.
  assert (Hone : (q * every - e = 1)%Z) by nia.
  split; [nia|]. exists q. split; [done|]. lia.
Qed.

Lemma train_step_epoch_end cfg env mts every epoch (i : nat)
    (b : Batch F) w :
  let len := Z.of_nat (dataloader_len env) in
  prediction_type cfg = "epsilon" ->
  batch_shaped w b ->
  is_main_process env = true ->
  (0 < every)%Z -> (0 <= epoch)%Z -> (i < dataloader_len env)%nat ->
  global_step w = (epoch * len + Z.of_nat i)%Z ->
  Forall (epoch_end_file cfg env every) (files w) ->
  exists w',
    train_step cfg env mts (every * len) epoch (Z.of_nat i) b w =
      (w', Ok (Z.leb mts (global_step w + 1))) /\
    global_step w' = (global_step w + 1)%Z /\
    clip w' = clip w /\
    Forall (epoch_end_file cfg env every) (files w').
Proof.
  intros len Hpt Hshape Hmain Hevery Hepoch Hi Hgs Hfiles.
  assert (Hcs : (every * len <> 0)%Z) by (subst len; nia).
  destruct (train_step_ok cfg env mts (every * len) epoch (Z.of_nat i) b w
              Hpt Hshape (fun _ => Hcs)) as (w' & Hrun & Hgs' & Hclip & _).
  exists w'. split; [exact Hrun|]. split; [exact Hgs'|].
  split; [exact Hclip|].
  destruct (train_step_world cfg env mts (every * len) epoch (Z.of_nat i)
              b w)
    as (n & r & [Hw|(w2 & nl & ts & ehs & pred & tgt & Hev & Hgs2 & Hf2
                     & Hw)]);
    rewrite Hrun in Hw; cbn [fst] in Hw; subst w'.
  - cbn [global_step set_rng set_events] in Hgs'. lia.
  - clear Hgs' Hrun Hclip. unfold after_bookkeeping, checkpoint_due.
    rewrite Hmain.
    destruct (wandb_gate cfg env); cbv beta iota zeta;
      cbn [global_step files set_events set_global_step];
      rewrite Hgs2;
      (destruct (Z.eqb_spec (every * len) 0); [done|]);
      (destruct (Z.eqb_spec ((global_step w + 1) mod (every * len)) 0)
         as [Hdue|_]; cbv beta iota;
       cbn [global_step files set_events set_global_step set_files];
       rewrite ?Hf2; [|exact Hfiles]).
    all: apply Forall_app; split; [exact Hfiles|]; apply Forall_singleton.
    all: rewrite Hgs in Hdue.
    all: destruct (due_only_at_epoch_end len every epoch (Z.of_nat i))
        as (Hlast & k & Hk & Hke); try done; try (subst len; lia).
    all: exists k; split; [done|]; split;
      [ cbn [fst]; subst len; rewrite Hlast, Z.eqb_refl;
        unfold epoch_checkpoint_name; by rewrite Hke
      | rewrite recorded_step_record;
        cbn [global_step set_events set_global_step];
        rewrite ?Hgs2, Hgs; f_equal; subst len; nia ].
Qed.

Lemma run_batches_epoch_end cfg env mts every epoch (n i0 : nat) w :
  let len := Z.of_nat (dataloader_len env) in
  (i0 + n = dataloader_len env)%nat ->
  prediction_type cfg = "epsilon" ->
  (forall i, batch_shaped w (batch_at env epoch i)) ->
  is_main_process env = true ->
  (0 < every)%Z -> (0 <= epoch)%Z ->
  global_step w = (epoch * len + Z.of_nat i0)%Z ->
  Forall (epoch_end_file cfg env every) (files w) ->
  exists w',
    run_batches cfg env mts (every * len) epoch
      ((fun i => (Z.of_nat i, batch_at env epoch i)) <$> seq i0 n) w =
      (w', Ok tt) /\
    global_step w' =
      (global_step w + Z.of_nat (epoch_batches mts (global_step w) n))%Z /\
    clip w' = clip w /\
    Forall (epoch_end_file cfg env every) (files w').
Proof.
  intros len Hsum Hpt Hshape Hmain Hevery Hepoch. subst len.
  revert i0 w Hsum Hshape.
  induction n as [|n IH]; intros i0 w Hsum Hshape Hgs Hfiles.
  - exists w. cbn [seq fmap list_fmap run_batches epoch_batches].
    unfold ret. repeat split; [lia|done].
  - cbn [seq fmap list_fmap run_batches epoch_batches]. unfold bind.
    destruct (train_step_epoch_end cfg env mts every epoch i0
                (batch_at env epoch i0) w Hpt (Hshape i0) Hmain Hevery
                Hepoch ltac:(lia) Hgs Hfiles)
      as (w1 & -> & Hgs1 & Hc1 & Hf1).
    destruct (Z.leb mts (global_step w + 1)).
    + exists w1. unfold ret. repeat split; [lia|done..].
    + destruct (IH (S i0) w1) as (w' & Hrun & Hgs' & Hc' & Hf');
        [lia| |lia|done|].
      { intros i. by apply (batch_shaped_clip w). }
      exists w'. split; [exact Hrun|]. rewrite Hgs1 in Hgs'.
      split; [lia|]. split; [congruence|done].
Qed.

Lemma run_epochs_epoch_end cfg env mts every (n : nat) (e0 : Z) w :
  let len := Z.of_nat (dataloader_len env) in
  prediction_type cfg = "epsilon" ->
  (forall epoch i, batch_shaped w (batch_at env epoch i)) ->
  is_main_process env = true ->
  (0 < every)%Z -> (0 < dataloader_len env)%nat -> (0 <= e0)%Z ->
  global_step w = (e0 * len)%Z ->
  n = 0%nat \/ ((Z.of_nat n - 1) * len < mts - global_step w)%Z ->
  Forall (epoch_end_file cfg env every) (files w) ->
  exists w',
    run_epochs cfg env mts (every * len) (seqZ e0 (Z.of_nat n)) w =
      (w', Ok tt) /\
    Forall (epoch_end_file cfg env every) (files w').
Proof.
  intros len Hpt Hshape Hmain Hevery Hlen. subst len.
  revert e0 w Hshape.
  induction n as [|n IH]; intros e0 w Hshape He0 Hgs Hn Hfiles.
  - exists w. done.
  - rewrite seqZ_cons by lia. cbn [run_epochs]. unfold bind.
    destruct (run_batches_epoch_end cfg env mts every e0
                (dataloader_len env) 0 w ltac:(lia) Hpt (Hshape e0) Hmain
                Hevery He0 ltac:(rewrite Hgs; lia) Hfiles)
      as (w1 & Hrun & Hgs1 & Hc1 & Hf1).
    unfold enumerate_batches. rewrite Hrun.
    replace (Z.pred (Z.of_nat (S n))) with (Z.of_nat n) by lia.
    destruct n as [|n].
    + exists w1. done.
    + destruct Hn as [Hn|Hn]; [done|].
      assert (Hlt : (global_step w < mts)%Z) by (nia).
      rewrite epoch_batches_below in Hgs1 by exact Hlt.
      apply (IH (Z.succ e0) w1);
        [ intros e i; by apply (batch_shaped_clip w)
        | lia
        | rewrite Hgs1, Hgs; nia
        | right; rewrite Hgs1; nia
        | done ].
Qed.

End EpochInterval.

(** ** The further properties at concrete runs *)













